(** * Digimon evolution API: validation helpers, query service and routes

    A shallow embedding of [src/utils/validation.js],
    [src/services/digimonService.js] and [src/routes/digimons.js], together
    with the ECMAScript built-ins those files call. *)

From Stdlib Require Import ZArith Lia Bool List Ascii String.
From stdpp Require Import base option list gmap strings.

Local Open Scope Z_scope.

(** ** ECMAScript values and built-ins used by the sources *)

Module JS.

(** A JavaScript string is a sequence of 16-bit code units. *)
Definition jsstring := list Z.

(** An ASCII literal as a JavaScript string. *)
Definition lit (s : string) : jsstring :=
  map (fun a => Z.of_N (N_of_ascii a)) (list_ascii_of_string s).

(** Numbers.  Only the integer-valued doubles are represented, with [NaN] and
    the two infinities: [Fin z] is meant for a [z] that is the value of a
    double (see [is_double]).  [Fin 0] stands for both zeros; they differ as
    a divisor only, and the routes never divide by zero. *)
Inductive JsNumber :=
| NaN
| Inf (negative : bool)
| Fin (z : Z).

(** The values that reach the validation helpers and the service: a query
    or path parameter is absent, a string, or a number after the coercion of
    the route's schema. *)
Inductive JsValue :=
| VUndefined
| VNull
| VBool (b : bool)
| VNum (n : JsNumber)
| VStr (s : jsstring).

(** [ToBoolean]. *)
Definition ToBoolean (v : JsValue) : bool :=
  match v with
  | VUndefined | VNull => false
  | VBool b => b
  | VNum NaN => false
  | VNum (Inf _) => true
  | VNum (Fin z) => negb (z =? 0)
  | VStr s => match s with [] => false | _ => true end
  end.

(** *** Round to nearest double, ties to even, on integers *)

(** The integer nearest to [z] with a significand of 53 bits. *)
Definition round53 (z : Z) : Z :=
  let a := Z.abs z in
  if a <? 2 ^ 53 then z
  else
    let e := Z.log2 a - 52 in
    let q := a / 2 ^ e in
    let r := a mod 2 ^ e in
    let half := 2 ^ (e - 1) in
    let q' := if (half <? r) || ((r =? half) && Z.odd q) then q + 1 else q in
    Z.sgn z * (q' * 2 ^ e).

(** The integer is the value of a double. *)
Definition is_double (z : Z) : Prop := round53 z = z /\ Z.abs z < 2 ^ 1024.

(** The Number value for a mathematical integer. *)
Definition of_Z (z : Z) : JsNumber :=
  let r := round53 z in
  if 2 ^ 1024 <=? Z.abs r then Inf (z <? 0) else Fin r.

(** *** Decimal numerals *)

Definition digit_char (d : Z) : Z := 48 + d.

Fixpoint digits_go (fuel : nat) (n : Z) (acc : list Z) : list Z :=
  match fuel with
  | O => acc
  | S fuel' =>
      let acc' := n mod 10 :: acc in
      if n / 10 =? 0 then acc' else digits_go fuel' (n / 10) acc'
  end.

(** Decimal digits of a non-negative integer, most significant first. *)
Definition digits (n : Z) : list Z :=
  digits_go (S (Z.to_nat (Z.log2 n))) n [].

Definition numeral (n : Z) : jsstring := map digit_char (digits n).

(** *** Number::toString(x), radix 10, for the integer-valued numbers *)

(** Among [lo] and [lo + 1] times [10 ^ m], the one that reads back as [v];
    the nearer one when both do, the even one on a tie. *)
Definition candidate (v m : Z) : option Z :=
  let p := 10 ^ m in
  let lo := v / p in
  let hi := lo + 1 in
  match round53 (lo * p) =? v, round53 (hi * p) =? v with
  | true, true =>
      let dl := v - lo * p in
      let dh := hi * p - v in
      if dl <? dh then Some lo
      else if dh <? dl then Some hi
      else Some (if Z.even lo then lo else hi)
  | true, false => Some lo
  | false, true => Some hi
  | false, false => None
  end.

(** Shortest significand: the least number [k] of digits such that some
    [s * 10 ^ (d - k)] is read back as [v], where [d] is the number of
    decimal digits of [v].  The result is [(s, d - k)]. *)
Fixpoint shortest_go (v d : Z) (ks : list Z) : Z * Z :=
  match ks with
  | [] => (v, 0)
  | k :: ks' =>
      if d <=? k then (v, 0)
      else match candidate v (d - k) with
           | Some s => (s, d - k)
           | None => shortest_go v d ks'
           end
  end.

Definition shortest (v : Z) : Z * Z :=
  shortest_go v (Z.of_nat (length (digits v))) (seqZ 1 17).

Fixpoint strip_zeros (l : list Z) : list Z :=
  match l with
  | [] => []
  | d :: l' =>
      match strip_zeros l' with
      | [] => if d =? 0 then [] else [d]
      | t => d :: t
      end
  end.

(** For [0 < v]: the digits of the shortest significand, followed by zeros
    when the value has at most 21 integer digits, and in exponent form
    otherwise.  The printed value is below [10 ^ 21] exactly when [v] is,
    [10 ^ 21] being a double, so the test is made on [v]. *)
Definition positive_toString (v : Z) : jsstring :=
  let '(s, m) := shortest v in
  let ds := digits s ++ replicate (Z.to_nat m) 0 in
  if v <? 10 ^ 21 then map digit_char ds
  else
    let n := Z.of_nat (length ds) in
    match strip_zeros ds with
    | [] => lit "0"
    | d :: frac =>
        digit_char d
          :: match frac with
             | [] => []
             | _ => 46 :: map digit_char frac
             end
          ++ lit "e+" ++ numeral (n - 1)
    end.

Definition Number_toString (x : JsNumber) : jsstring :=
  match x with
  | NaN => lit "NaN"
  | Inf false => lit "Infinity"
  | Inf true => lit "-Infinity"
  | Fin z =>
      if z =? 0 then lit "0"
      else if z <? 0 then 45 :: positive_toString (- z)
      else positive_toString z
  end.

(** [ToString]. *)
Definition ToString (v : JsValue) : jsstring :=
  match v with
  | VUndefined => lit "undefined"
  | VNull => lit "null"
  | VBool true => lit "true"
  | VBool false => lit "false"
  | VNum n => Number_toString n
  | VStr s => s
  end.

(** *** White space, [String.prototype.trim] *)

(** [WhiteSpace] and [LineTerminator] code units. *)
Definition is_white_space (c : Z) : bool :=
  ((9 <=? c) && (c <=? 13)) || (c =? 32) || (c =? 160) || (c =? 5760)
  || ((8192 <=? c) && (c <=? 8202)) || (c =? 8232) || (c =? 8233)
  || (c =? 8239) || (c =? 8287) || (c =? 12288) || (c =? 65279).

Fixpoint drop_while {A} (p : A -> bool) (l : list A) : list A :=
  match l with
  | [] => []
  | x :: l' => if p x then drop_while p l' else l
  end.

Fixpoint take_while {A} (p : A -> bool) (l : list A) : list A :=
  match l with
  | [] => []
  | x :: l' => if p x then x :: take_while p l' else []
  end.

Definition trim (s : jsstring) : jsstring :=
  rev (drop_while is_white_space (rev (drop_while is_white_space s))).

(** *** [parseInt(string)] with the radix left out *)

(** Leading white space is skipped, then an optional sign, then [0x] or [0X]
    switches to radix 16; the longest prefix of digits is read, and the
    result is [NaN] when there is none. *)
Definition digit_value (R c : Z) : option Z :=
  let d :=
    if (48 <=? c) && (c <=? 57) then c - 48
    else if (97 <=? c) && (c <=? 122) then c - 87
    else if (65 <=? c) && (c <=? 90) then c - 55
    else 36 in
  if d <? R then Some d else None.

Definition is_radix_digit (R c : Z) : bool :=
  match digit_value R c with Some _ => true | None => false end.

Definition radix_value (R : Z) (l : jsstring) : Z :=
  fold_left (fun acc c => acc * R + default 0 (digit_value R c)) l 0.

Definition parseInt_string (input : jsstring) : JsNumber :=
  let S0 := drop_while is_white_space input in
  let '(sign, S1) :=
    match S0 with
    | c :: rest =>
        if c =? 45 then (-1, rest)
        else if c =? 43 then (1, rest) else (1, S0)
    | [] => (1, S0)
    end in
  let '(R, S2) :=
    match S1 with
    | c :: x :: rest =>
        if (c =? 48) && ((x =? 120) || (x =? 88)) then (16, rest)
        else (10, S1)
    | _ => (10, S1)
    end in
  match take_while (is_radix_digit R) S2 with
  | [] => NaN
  | ds => of_Z (sign * radix_value R ds)
  end.

Definition parseInt (v : JsValue) : JsNumber := parseInt_string (ToString v).

(** [Math.max] and [Math.min] of two numbers. *)
Definition Math_max (a b : JsNumber) : JsNumber :=
  match a, b with
  | NaN, _ | _, NaN => NaN
  | Inf false, _ | _, Inf false => Inf false
  | Inf true, x | x, Inf true => x
  | Fin x, Fin y => Fin (Z.max x y)
  end.

Definition Math_min (a b : JsNumber) : JsNumber :=
  match a, b with
  | NaN, _ | _, NaN => NaN
  | Inf true, _ | _, Inf true => Inf true
  | Inf false, x | x, Inf false => x
  | Fin x, Fin y => Fin (Z.min x y)
  end.

(** [a || b] on a number and a numeric default. *)
Definition or_default (a b : JsNumber) : JsNumber :=
  if ToBoolean (VNum a) then a else b.

(** [-a], [a + b], [a - b] and [a * b] on the integer-valued numbers: the
    exact result, rounded. *)
Definition num_neg (a : JsNumber) : JsNumber :=
  match a with
  | NaN => NaN
  | Inf s => Inf (negb s)
  | Fin x => Fin (- x)
  end.

Definition num_add (a b : JsNumber) : JsNumber :=
  match a, b with
  | NaN, _ | _, NaN => NaN
  | Inf s, Inf t => if Bool.eqb s t then Inf s else NaN
  | Inf s, Fin _ | Fin _, Inf s => Inf s
  | Fin x, Fin y => of_Z (x + y)
  end.

Definition num_sub (a b : JsNumber) : JsNumber := num_add a (num_neg b).

Definition num_mul (a b : JsNumber) : JsNumber :=
  match a, b with
  | NaN, _ | _, NaN => NaN
  | Inf s, Inf t => Inf (xorb s t)
  | Inf s, Fin x | Fin x, Inf s =>
      if x =? 0 then NaN else Inf (xorb s (x <? 0))
  | Fin x, Fin y => of_Z (x * y)
  end.

(** The double nearest to [x / y] for [0 < x] and [0 < y], as a significand
    [n] and an exponent [e]: [2 ^ 52 <= n <= 2 ^ 53] and the value is
    [n * 2 ^ e]. *)
Definition quot_exponent (x y : Z) : Z :=
  let d := Z.log2 x - Z.log2 y in
  if y * 2 ^ Z.max 0 d <=? x * 2 ^ Z.max 0 (- d) then d - 52 else d - 53.

Definition quot_double (x y : Z) : Z * Z :=
  let e := quot_exponent x y in
  let num := x * 2 ^ Z.max 0 (- e) in
  let den := y * 2 ^ Z.max 0 e in
  let q := num / den in
  let r := num mod den in
  let n := if (den <? 2 * r) || ((2 * r =? den) && Z.odd q) then q + 1 else q in
  (n, e).

(** Ceiling and floor of [n * 2 ^ e]. *)
Definition dyadic_ceil (ne : Z * Z) : Z :=
  let '(n, e) := ne in
  if 0 <=? e then n * 2 ^ e else - ((- n) / 2 ^ (- e)).

Definition dyadic_floor (ne : Z * Z) : Z :=
  let '(n, e) := ne in
  if 0 <=? e then n * 2 ^ e else n / 2 ^ (- e).

(** [Math.ceil(a / b)]: the quotient is rounded to a double first. *)
Definition Math_ceil_div (a b : JsNumber) : JsNumber :=
  match a, b with
  | NaN, _ | _, NaN => NaN
  | Inf _, Inf _ => NaN
  | Inf s, Fin y => Inf (xorb s (y <? 0))
  | Fin _, Inf _ => Fin 0
  | Fin x, Fin y =>
      if y =? 0 then (if x =? 0 then NaN else Inf (x <? 0))
      else if x =? 0 then Fin 0
      else
        let w := quot_double (Z.abs x) (Z.abs y) in
        if Bool.eqb (x <? 0) (y <? 0) then Fin (dyadic_ceil w)
        else Fin (- dyadic_floor w)
  end.

(** [ToNumber] of a value that is a number or [null]. *)
Definition number_or_null (c : option JsNumber) : JsNumber :=
  match c with
  | Some n => n
  | None => Fin 0
  end.

End JS.

Import JS.

(** ** [src/utils/validation.js] *)

Definition is_string (v : JsValue) : bool :=
  match v with
  | VStr _ => true
  | _ => false
  end.

(** [s.replace(/[<>]/g, '')]. *)
Definition remove_angle_brackets (s : jsstring) : jsstring :=
  filter (fun c => negb ((c =? 60) || (c =? 62)) = true) s.

(** [s.substring(0, n)]. *)
Definition substring0 (n : nat) (s : jsstring) : jsstring := take n s.

Definition sanitizeSearchTerm (term : JsValue) : jsstring :=
  if negb (ToBoolean term) || negb (is_string term) then []
  else substring0 100 (remove_angle_brackets (trim (ToString term))).

Record PageLimit := { page : JsNumber; limit : JsNumber }.

Definition validatePagination (page limit : JsValue) : PageLimit :=
  let validatedPage := Math_max (Fin 1) (or_default (parseInt page) (Fin 1)) in
  let validatedLimit :=
    Math_min (Fin 100)
      (Math_max (Fin 1) (or_default (parseInt limit) (Fin 50))) in
  {| page := validatedPage; limit := validatedLimit |}.

(** ** The backend client *)

(** A table row as the client hands it over: an object with scalar fields. *)
Abbreviation Row := (gmap string JsValue).

(** [o.k], [undefined] when the object has no such field. *)
Definition field (o : Row) (k : string) : JsValue :=
  default VUndefined (o !! k).

(** Rows of the two joins over [evolutions]: one embedded creature, or null. *)
Record ToRow := { to_digimon : option Row }.
Record FromRow := { from_digimon : option Row }.

Record PgError := { code : string; message : string }.

(** What an awaited query resolves to: [{ data, error, count }]. *)
Record Response (A : Type) := {
  data : option A;
  error : option PgError;
  count : option JsNumber
}.
Arguments data {A} _.
Arguments error {A} _.
Arguments count {A} _.

(** The queries the service builds, indexed by the type of their data:
    - [ListDigimons from to stage]: [digimons], all columns with an exact
      count, ordered by [number], rows [from] to [to], with [stage] equal to
      the given value when there is one;
    - [DigimonById id], [DigimonByName name]: the single row of [digimons]
      with that [id] or [name];
    - [SearchByName pattern limit]: at most [limit] rows of [digimons] whose
      name matches [pattern] without regard to case;
    - [EvolutionsFrom id], [EvolutionsTo id]: the rows of [evolutions] that
      start or end at [id], joined with the creature at the other end;
    - [Requirements id]: the rows of [requirements] for [id];
    - [CountDigimons]: the exact row count of [digimons], without rows;
    - [CountByStage]: the stored procedure [count_digimons_by_stage]. *)
Inductive Query : Type -> Type :=
| ListDigimons (from to : JsNumber) (stage : option JsValue)
    : Query (list Row)
| DigimonById (id : JsValue) : Query Row
| DigimonByName (name : JsValue) : Query Row
| SearchByName (pattern : jsstring) (limit : JsNumber) : Query (list Row)
| EvolutionsFrom (id : JsValue) : Query (list ToRow)
| EvolutionsTo (id : JsValue) : Query (list FromRow)
| Requirements (id : JsValue) : Query (list Row)
| CountDigimons : Query unit
| CountByStage : Query (list Row).

(** What is thrown: [new Error(msg)], or the [TypeError] of a method call
    on [null]. *)
Inductive JsError :=
| Error (msg : jsstring)
| TypeError.

(** Asynchronous code: it returns, throws, awaits a query or logs. *)
Inductive Prog (A : Type) : Type :=
| Ret (a : A)
| Throw (e : JsError)
| Await {X : Type} (q : Query X) (k : Response X -> Prog A)
| ConsoleError (label : string) (errors : list (option PgError)) (k : Prog A).
Arguments Ret {A} _.
Arguments Throw {A} _.
Arguments Await {A X} _ _.
Arguments ConsoleError {A} _ _ _.

Fixpoint bind {A B} (m : Prog A) (f : A -> Prog B) : Prog B :=
  match m with
  | Ret a => f a
  | Throw e => Throw e
  | Await q k => Await q (fun r => bind (k r) f)
  | ConsoleError l es k => ConsoleError l es (bind k f)
  end.

#[export] Instance Prog_ret : MRet Prog := fun _ a => Ret a.
#[export] Instance Prog_bind : MBind Prog := fun _ _ f m => bind m f.

Definition await {X} (q : Query X) : Prog (Response X) := Await q Ret.

(** A backend state answers every query. *)
Definition Backend := forall X, Query X -> Response X.

Inductive Outcome (A : Type) :=
| Returned (a : A)
| Thrown (e : JsError).
Arguments Returned {A} _.
Arguments Thrown {A} _.

Fixpoint result {A} (b : Backend) (p : Prog A) : Outcome A :=
  match p with
  | Ret a => Returned a
  | Throw e => Thrown e
  | Await q k => result b (k (b _ q))
  | ConsoleError _ _ k => result b k
  end.

Definition AnyQuery := { X : Type & Query X }.
Definition any {X} (q : Query X) : AnyQuery := existT X q.

(** The queries a run sends to the backend, in order. *)
Fixpoint issued {A} (b : Backend) (p : Prog A) : list AnyQuery :=
  match p with
  | Ret _ | Throw _ => []
  | Await q k => any q :: issued b (k (b _ q))
  | ConsoleError _ _ k => issued b k
  end.

(** ** [src/services/digimonService.js] *)

Record Digimon := {
  id : JsValue;
  number : JsValue;
  name : JsValue;
  stage : JsValue;
  attribute : JsValue;
  image_url : JsValue
}.

Definition formatDigimon (digimon : option Row) : option Digimon :=
  match digimon with
  | None => None
  | Some digimon =>
      Some {| id := field digimon "id";
              number := field digimon "number";
              name := field digimon "name";
              stage := field digimon "stage";
              attribute := field digimon "attribute";
              image_url := field digimon "image_url" |}
  end.

(** [rows.map(f)]; a [TypeError] when [rows] is null. *)
Definition array_map {A B} (rows : option (list A)) (f : A -> B)
  : Prog (list B) :=
  match rows with
  | None => Throw TypeError
  | Some l => Ret (map f l)
  end.

Module Msg.
Definition getAllDigimons : jsstring :=
  lit "N" ++ [227] ++ lit "o foi poss" ++ [237]
    ++ lit "vel buscar os Digimons.".
Definition getDigimonById : jsstring := lit "Erro ao buscar Digimon por ID.".
Definition getDigimonByName : jsstring :=
  lit "Erro ao buscar Digimon por nome.".
Definition searchDigimons : jsstring := lit "Erro ao pesquisar Digimons.".
Definition getEvolutionData : jsstring :=
  lit "Erro ao buscar dados de evolu" ++ [231; 227] ++ lit "o.".
Definition getStats : jsstring :=
  lit "Erro ao buscar estat" ++ [237] ++ lit "sticas.".
Definition search_required : jsstring :=
  lit "Termo de busca " ++ [233] ++ lit " obrigat" ++ [243] ++ lit "rio".
Definition not_found : jsstring :=
  lit "Digimon n" ++ [227] ++ lit "o encontrado".
Definition found : jsstring := lit "Digimon encontrado".
Definition n_found (n : nat) : jsstring :=
  Number_toString (Fin (Z.of_nat n)) ++ lit " Digimons encontrados".
Definition stats : jsstring :=
  lit "Estat" ++ [237] ++ lit "sticas recuperadas com sucesso".
Definition evolution : jsstring :=
  lit "Dados de evolu" ++ [231; 227] ++ lit "o recuperados".
End Msg.

Record Pagination := {
  pg_page : JsNumber;
  pg_limit : JsNumber;
  total : option JsNumber;
  totalPages : JsNumber
}.

Record DigimonPage := {
  dp_data : list (option Digimon);
  pagination : Pagination
}.

Definition getAllDigimons (page limit : option JsNumber) (stage : JsValue)
  : Prog DigimonPage :=
  let page := default (Fin 1) page in
  let limit := default (Fin 50) limit in
  let from := num_mul (num_sub page (Fin 1)) limit in
  let to := num_sub (num_add from limit) (Fin 1) in
  let filter := if ToBoolean stage then Some stage else None in
  r ← await (ListDigimons from to filter);
  match error r with
  | Some e =>
      ConsoleError "Erro em getAllDigimons:" [Some e]
        (Throw (Error Msg.getAllDigimons))
  | None =>
      formatted ← array_map (data r) (fun d => formatDigimon (Some d));
      Ret {| dp_data := formatted;
             pagination :=
               {| pg_page := page;
                  pg_limit := limit;
                  total := count r;
                  totalPages :=
                    Math_ceil_div (number_or_null (count r)) limit |} |}
  end.

(** [error && error.code !== 'PGRST116']. *)
Definition is_failure (e : option PgError) : bool :=
  match e with
  | Some e => negb (bool_decide (code e = "PGRST116"))
  | None => false
  end.

Definition getDigimonById (id : JsValue) : Prog (option Digimon) :=
  r ← await (DigimonById id);
  if is_failure (error r) then
    ConsoleError "Erro em getDigimonById:" [error r]
      (Throw (Error Msg.getDigimonById))
  else Ret (formatDigimon (data r)).

Definition getDigimonByName (name : JsValue) : Prog (option Digimon) :=
  r ← await (DigimonByName name);
  if is_failure (error r) then
    ConsoleError "Erro em getDigimonByName:" [error r]
      (Throw (Error Msg.getDigimonByName))
  else Ret (formatDigimon (data r)).

Definition searchDigimons (searchTerm : jsstring) (limit : option JsNumber)
  : Prog (list (option Digimon)) :=
  let limit := default (Fin 10) limit in
  r ← await (SearchByName (lit "%" ++ searchTerm ++ lit "%") limit);
  match error r with
  | Some e =>
      ConsoleError "Erro em searchDigimons:" [Some e]
        (Throw (Error Msg.searchDigimons))
  | None => array_map (data r) (fun d => formatDigimon (Some d))
  end.

(** What [getEvolutionData] returns: [{ digimon: null }], or the creature with
    its neighbours and its requirement rows. *)
Inductive EvolutionData :=
| NoDigimon
| Evolution (digimon : Digimon)
    (evolves_to evolves_from : list (option Digimon))
    (requirements : option (list Row)).

Definition ed_digimon (e : EvolutionData) : option Digimon :=
  match e with
  | NoDigimon => None
  | Evolution d _ _ _ => Some d
  end.

Definition getEvolutionData (id : JsValue) : Prog EvolutionData :=
  digimon ← getDigimonById id;
  match digimon with
  | None => Ret NoDigimon
  | Some digimon =>
      r1 ← await (EvolutionsFrom id);
      r2 ← await (EvolutionsTo id);
      r3 ← await (Requirements id);
      match error r1, error r2, error r3 with
      | None, None, None =>
          evolves_to ←
            array_map (data r1) (fun e => formatDigimon (to_digimon e));
          evolves_from ←
            array_map (data r2) (fun e => formatDigimon (from_digimon e));
          Ret (Evolution digimon evolves_to evolves_from (data r3))
      | e1, e2, e3 =>
          ConsoleError "" [e1; e2; e3] (Throw (Error Msg.getEvolutionData))
      end
  end.

Record Stats := {
  total_digimons : option JsNumber;
  count_by_stage : option (list Row)
}.

Definition getStats : Prog Stats :=
  r1 ← await CountDigimons;
  r2 ← await CountByStage;
  match error r1, error r2 with
  | None, None =>
      Ret {| total_digimons := count r1; count_by_stage := data r2 |}
  | e1, e2 => ConsoleError "" [e1; e2] (Throw (Error Msg.getStats))
  end.

(** ** [src/routes/digimons.js] *)

Record Request := {
  query : Row;
  params : Row
}.

Record Reply (Body : Type) := {
  status : Z;
  body : Body
}.
Arguments status {Body} _.
Arguments body {Body} _.

(** What the routes hand to [successResponse]. *)
Inductive Payload :=
| PDigimon (d : Digimon)
| PDigimons (l : list (option Digimon))
| PEvolution (e : EvolutionData)
| PStats (s : Stats).

Inductive Route :=
| GetList
| GetSearch
| GetStats
| GetById
| GetEvolutions
| GetByName.

(** The handlers below are the functions the source wraps in [asyncHandler]
    (of [middleware/errorHandler.js]): what a handler throws is what the
    wrapper hands over to the error handling of the server. *)
Section Routes.

(** The envelope builders of [utils/response.js]: any functions. *)
Context {Body : Type}.
Variable successResponse : Payload -> jsstring -> Body.
Variable paginatedResponse : list (option Digimon) -> Pagination -> Body.
Variable errorResponse : jsstring -> option Z -> Body.

(** [reply.send(b)] and [reply.status(c).send(b)]. *)
Definition send (b : Body) : Prog (Reply Body) :=
  Ret {| status := 200; body := b |}.
Definition status_send (c : Z) (b : Body) : Prog (Reply Body) :=
  Ret {| status := c; body := b |}.

(** GET / *)
Definition list_handler (request : Request) : Prog (Reply Body) :=
  let pl :=
    validatePagination (field (query request) "page")
      (field (query request) "limit") in
  let stage := field (query request) "stage" in
  result ← getAllDigimons (Some (page pl)) (Some (limit pl)) stage;
  send (paginatedResponse (dp_data result) (pagination result)).

(** GET /search *)
Definition search_handler (request : Request) : Prog (Reply Body) :=
  let searchTerm := sanitizeSearchTerm (field (query request) "q") in
  let limit :=
    Math_min (Fin 50)
      (Math_max (Fin 1)
         (or_default (parseInt (field (query request) "limit")) (Fin 10))) in
  if negb (ToBoolean (VStr searchTerm)) then
    status_send 400 (errorResponse Msg.search_required None)
  else
    results ← searchDigimons searchTerm (Some limit);
    send (successResponse (PDigimons results) (Msg.n_found (length results))).

(** GET /stats *)
Definition stats_handler (request : Request) : Prog (Reply Body) :=
  stats ← getStats;
  send (successResponse (PStats stats) Msg.stats).

(** GET /:id *)
Definition id_handler (request : Request) : Prog (Reply Body) :=
  digimon ← getDigimonById (field (params request) "id");
  match digimon with
  | None => status_send 404 (errorResponse Msg.not_found (Some 404))
  | Some digimon => send (successResponse (PDigimon digimon) Msg.found)
  end.

(** GET /:id/evolutions *)
Definition evolutions_handler (request : Request) : Prog (Reply Body) :=
  evolutionData ← getEvolutionData (field (params request) "id");
  match ed_digimon evolutionData with
  | None => status_send 404 (errorResponse Msg.not_found (Some 404))
  | Some _ =>
      send (successResponse (PEvolution evolutionData) Msg.evolution)
  end.

(** GET /name/:name *)
Definition name_handler (request : Request) : Prog (Reply Body) :=
  digimon ← getDigimonByName (field (params request) "name");
  match digimon with
  | None => status_send 404 (errorResponse Msg.not_found (Some 404))
  | Some digimon => send (successResponse (PDigimon digimon) Msg.found)
  end.

Definition digimonRoutes (r : Route) : Request -> Prog (Reply Body) :=
  match r with
  | GetList => list_handler
  | GetSearch => search_handler
  | GetStats => stats_handler
  | GetById => id_handler
  | GetEvolutions => evolutions_handler
  | GetByName => name_handler
  end.

End Routes.

(** Modelled from the spec: the JSON envelopes built by
    [src/utils/response.js], which is not among the sources.  A success is
    [{success: true, data, message}], a page of results
    [{success: true, data, pagination}] and an error
    [{success: false, error, statusCode}]. *)
Inductive Envelope :=
| SuccessEnvelope (data : Payload) (message : jsstring)
| PaginatedEnvelope (data : list (option Digimon)) (pagination : Pagination)
| ErrorEnvelope (error : jsstring) (statusCode : option Z).

(** Modelled from the spec: the [success] field of an envelope. *)
Definition success (e : Envelope) : bool :=
  match e with
  | ErrorEnvelope _ _ => false
  | _ => true
  end.

(** Modelled from the spec: [successResponse(data, message)] of
    [src/utils/response.js]. *)
Definition successResponse : Payload -> jsstring -> Envelope := SuccessEnvelope.

(** Modelled from the spec: [paginatedResponse(data, pagination)] of
    [src/utils/response.js]. *)
Definition paginatedResponse
  : list (option Digimon) -> Pagination -> Envelope := PaginatedEnvelope.

(** Modelled from the spec: [errorResponse(error, statusCode)] of
    [src/utils/response.js]; the status code is the one passed in. *)
Definition errorResponse : jsstring -> option Z -> Envelope := ErrorEnvelope.

(** The routes with the envelopes of the spec. *)
Definition api : Route -> Request -> Prog (Reply Envelope) :=
  digimonRoutes successResponse paginatedResponse errorResponse.

(** Backends for the examples. *)
Definition no_rows : PgError :=
  {| code := "PGRST116"; message := "no rows" |}.
Definition timeout : PgError :=
  {| code := "57014"; message := "statement timeout" |}.

Definition answer {X} (d : option X) (e : option PgError) : Response X :=
  {| data := d; error := e; count := None |}.

Definition agumon : Row :=
  {[ "id" := VNum (Fin 1); "number" := VNum (Fin 21);
     "name" := VStr (lit "Agumon"); "stage" := VStr (lit "III");
     "attribute" := VStr (lit "Vaccine"); "image_url" := VNull;
     "created_at" := VStr (lit "2024-01-01") ]}.

Definition greymon : Row :=
  {[ "id" := VNum (Fin 2); "number" := VNum (Fin 45);
     "name" := VStr (lit "Greymon"); "stage" := VStr (lit "IV") ]}.

(** No table holds a row. *)
Definition empty_backend : Backend :=
  fun X q =>
    match q in Query T return Response T with
    | DigimonById _ | DigimonByName _ => answer None (Some no_rows)
    | CountDigimons => {| data := None; error := None; count := Some (Fin 0) |}
    | ListDigimons _ _ _ =>
        {| data := Some []; error := None; count := Some (Fin 0) |}
    | _ => answer (Some []) None
    end.

(** Every query fails. *)
Definition failing_backend : Backend :=
  fun X q => answer None (Some timeout).

(** One creature with one evolution; [reqs] is what the requirements query
    answers, [n] the row count of [digimons]. *)
Definition agumon_backend (reqs : Response (list Row)) (n : Z) : Backend :=
  fun X q =>
    match q in Query T return Response T with
    | DigimonById _ | DigimonByName _ => answer (Some agumon) None
    | EvolutionsFrom _ =>
        answer (Some [ {| to_digimon := Some greymon |} ]) None
    | EvolutionsTo _ => answer (Some []) None
    | Requirements _ => reqs
    | CountDigimons => {| data := None; error := None; count := Some (Fin n) |}
    | ListDigimons _ _ _ =>
        {| data := Some [agumon]; error := None; count := Some (Fin n) |}
    | SearchByName _ _ => answer (Some [agumon]) None
    | CountByStage => answer (Some []) None
    end.

Definition request_id (i : Z) : Request :=
  {| query := ∅; params := {[ "id" := VNum (Fin i) ]} |}.

Definition request_query (q : Row) : Request :=
  {| query := q; params := ∅ |}.

(** The spec's wording of [sanitizeSearchTerm]. *)
Definition sanitize_spec (term : JsValue) : jsstring :=
  match term with
  | VStr s => take 100 (remove_angle_brackets (trim s))
  | _ => []
  end.

(** Two backends answer the listed queries alike. *)
Definition agree_on (qs : list AnyQuery) (b1 b2 : Backend) : Prop :=
  forall X (q : Query X), In (any q) qs -> b2 X q = b1 X q.

(** The value of a list of decimal digits, most significant first. *)
Definition dec_value (ds : list Z) : Z :=
  fold_left (fun a d => a * 10 + d) ds 0.

Definition is_dec_digit (d : Z) : Prop := 0 <= d <= 9.

(** Where the digits of a numeral end: at the end of the string or at a code
    unit that is not a decimal digit. *)
Definition stops (rest : jsstring) : Prop :=
  match rest with
  | [] => True
  | c :: _ => is_radix_digit 10 c = false
  end.

(** A number that is at least 1. *)
Definition at_least_1 (n : JsNumber) : Prop :=
  match n with
  | NaN | Inf true => False
  | Inf false => True
  | Fin z => 1 <= z
  end.

(** ** The input schemas of [src/utils/validation.js] *)

(** An [integer] property with its [minimum], [maximum] and [default]. *)
Record IntegerSchema := {
  minimum : Z;
  maximum : option Z;
  default_ : option Z
}.

(** The integers a schema accepts. *)
Definition accepts (s : IntegerSchema) (z : Z) : Prop :=
  minimum s <= z /\ forall m, maximum s = Some m -> z <= m.

Module schemas.
Definition searchDigimons_limit : IntegerSchema :=
  {| minimum := 1; maximum := Some 50; default_ := Some 10 |}.
Definition listDigimons_page : IntegerSchema :=
  {| minimum := 1; maximum := None; default_ := Some 1 |}.
Definition listDigimons_limit : IntegerSchema :=
  {| minimum := 1; maximum := Some 100; default_ := Some 50 |}.
(** The [enum] of [listDigimons.stage]. *)
Definition listDigimons_stage : list jsstring :=
  map lit
    [ "I"; "II"; "III"; "IV"; "V"; "VI"; "VI+"; "Armor"; "Human Hybrid";
      "Beast Hybrid"; "Fusion Hybrid"; "Golden Armor"; "Transcendent Hybrid";
      "Unknown"; "N/A" ]%string.
End schemas.

(** ** Further notions for the properties *)

(** The [limit] the search handler computes from [request.query.limit]. *)
Definition search_limit (v : JsValue) : JsNumber :=
  Math_min (Fin 50) (Math_max (Fin 1) (or_default (parseInt v) (Fin 10))).

(** What a run writes with [console.error], in order. *)
Fixpoint logged {A} (b : Backend) (p : Prog A)
  : list (string * list (option PgError)) :=
  match p with
  | Ret _ | Throw _ => []
  | Await q k => logged b (k (b _ q))
  | ConsoleError l es k => (l, es) :: logged b k
  end.

(** The fields [formatDigimon] copies. *)
Definition public_fields : list string :=
  [ "id"; "number"; "name"; "stage"; "attribute"; "image_url" ]%string.

Definition is_angle_bracket (c : Z) : Prop := c = 60 \/ c = 62.

(** [r] is [s] with every [<] and [>] left out and every other code unit
    kept, in order. *)
Inductive without_angle_brackets : jsstring -> jsstring -> Prop :=
| wab_nil : without_angle_brackets [] []
| wab_drop (c : Z) (s r : jsstring) :
    is_angle_bracket c -> without_angle_brackets s r ->
    without_angle_brackets (c :: s) r
| wab_keep (c : Z) (s r : jsstring) :
    ~ is_angle_bracket c -> without_angle_brackets s r ->
    without_angle_brackets (c :: s) (c :: r).

Definition white_space (s : jsstring) : Prop :=
  Forall (fun c => is_white_space c = true) s.

(** The string has no white space at either end. *)
Definition trimmed (s : jsstring) : Prop :=
  match s with
  | [] => True
  | c :: _ => is_white_space c = false
  end
  /\ match rev s with
     | [] => True
     | c :: _ => is_white_space c = false
     end.

(** A value [parseInt] finds no number in: anything but a finite number or
    a string that starts, after white space, with a sign or a decimal
    digit. *)
Definition non_numeric (v : JsValue) : Prop :=
  match v with
  | VNum (Fin _) => False
  | VStr s =>
      match drop_while is_white_space s with
      | [] => True
      | c :: _ => c <> 43 /\ c <> 45 /\ is_radix_digit 10 c = false
      end
  | _ => True
  end.

(** A run writes one log entry when it throws an [Error] and none
    otherwise. *)
Definition logs_failure_once {A} (b : Backend) (p : Prog A) : Prop :=
  match result b p with
  | Thrown (Error _) => length (logged b p) = 1%nat
  | _ => logged b p = []
  end.

(** The errors with which the service can make a route fail. *)
Definition route_error (r : Route) (e : JsError) : Prop :=
  match r with
  | GetList => e = Error Msg.getAllDigimons
  | GetSearch => e = Error Msg.searchDigimons
  | GetStats => e = Error Msg.getStats
  | GetById => e = Error Msg.getDigimonById
  | GetEvolutions =>
      e = Error Msg.getDigimonById \/ e = Error Msg.getEvolutionData
  | GetByName => e = Error Msg.getDigimonByName
  end.

(** A backend that answers the list query with [n] rows and the search with
    two. *)
Definition many_backend (n : Z) : Backend :=
  fun X q =>
    match q in Query T return Response T with
    | DigimonById _ | DigimonByName _ => answer (Some greymon) None
    | EvolutionsFrom _ => answer (Some [ {| to_digimon := None |} ]) None
    | EvolutionsTo _ =>
        answer (Some [ {| from_digimon := Some agumon |} ]) None
    | Requirements _ => answer (Some []) None
    | CountDigimons => {| data := None; error := None; count := Some (Fin n) |}
    | ListDigimons _ _ _ =>
        {| data := Some [agumon; greymon]; error := None;
           count := Some (Fin n) |}
    | SearchByName _ _ => answer (Some [agumon; greymon]) None
    | CountByStage => answer (Some [agumon]) None
    end.

(** * Properties *)

(** ** The built-ins on examples *)

Example Number_toString_examples :
  Number_toString (Fin 125) = lit "125"
  /\ Number_toString (Fin (-7)) = lit "-7"
  /\ Number_toString (Fin (2 ^ 53)) = lit "9007199254740992"
  /\ Number_toString (Fin (2 ^ 64)) = lit "18446744073709552000"
  /\ Number_toString (Fin (10 ^ 21 - 131072)) = lit "999999999999999900000"
  /\ Number_toString (Fin (10 ^ 21)) = lit "1e+21"
  /\ Number_toString (Fin (2 ^ 70)) = lit "1.1805916207174113e+21"
  /\ Number_toString (Fin (- 47 * 10 ^ 21)) = lit "-4.7e+22".
Proof.
  repeat split; vm_compute; reflexivity.
Qed.

Example parseInt_examples :
  parseInt (VStr (lit "42")) = Fin 42
  /\ parseInt (VStr (lit "  -12px")) = Fin (-12)
  /\ parseInt (VStr (lit "0x1F")) = Fin 31
  /\ parseInt (VStr (lit "abc")) = NaN
  /\ parseInt (VStr (lit "")) = NaN
  /\ parseInt VUndefined = NaN
  /\ parseInt (VNum (Inf false)) = NaN
  /\ parseInt (VStr (lit "9007199254740993")) = Fin 9007199254740992
  /\ parseInt (VNum (Fin 100)) = Fin 100
  /\ parseInt (VNum (Fin (10 ^ 21))) = Fin 1
  /\ parseInt (VNum (Fin (- 47 * 10 ^ 21))) = Fin (-4).
Proof.
  repeat split; vm_compute; reflexivity.
Qed.

Example validatePagination_examples :
  validatePagination VUndefined VUndefined =
    {| page := Fin 1; limit := Fin 50 |}
  /\ validatePagination (VStr (lit "3")) (VStr (lit "20")) =
       {| page := Fin 3; limit := Fin 20 |}
  /\ validatePagination (VStr (lit "x")) (VNum (Fin 500)) =
       {| page := Fin 1; limit := Fin 100 |}
  /\ validatePagination (VNum (Fin (-2))) (VNum (Fin (-5))) =
       {| page := Fin 1; limit := Fin 1 |}.
Proof.
  repeat split; vm_compute; reflexivity.
Qed.

Example Math_ceil_div_examples :
  Math_ceil_div (Fin 125) (Fin 50) = Fin 3
  /\ Math_ceil_div (Fin 100) (Fin 50) = Fin 2
  /\ Math_ceil_div (Fin 0) (Fin 50) = Fin 0
  /\ Math_ceil_div (Fin 1) (Fin 100) = Fin 1
  /\ Math_ceil_div (Fin (2 ^ 53 - 1)) (Fin 3) = Fin 3002399751580331
  /\ Math_ceil_div (Fin 5) (Fin 0) = Inf false.
Proof.
  repeat split; vm_compute; reflexivity.
Qed.

(** ** The monad of asynchronous code *)

Lemma result_bind {A B} (b : Backend) (m : Prog A) (f : A -> Prog B) :
  result b (m ≫= f) =
  match result b m with
  | Returned a => result b (f a)
  | Thrown e => Thrown e
  end.
Proof.
  unfold mbind, Prog_bind.
  induction m as [a | e | X q k IH | l es k IH]; simpl; auto.
Qed.

Lemma issued_bind {A B} (b : Backend) (m : Prog A) (f : A -> Prog B) :
  issued b (m ≫= f) =
  issued b m ++
  match result b m with
  | Returned a => issued b (f a)
  | Thrown _ => []
  end.
Proof.
  unfold mbind, Prog_bind.
  induction m as [a | e | X q k IH | l es k IH]; simpl; auto.
  now rewrite IH.
Qed.

(** A run only depends on the answers to the queries it sends. *)
Lemma run_agree {A} (p : Prog A) (b1 b2 : Backend) :
  agree_on (issued b1 p) b1 b2 ->
  result b2 p = result b1 p /\ issued b2 p = issued b1 p.
Proof.
  induction p as [a | e | X q k IH | l es k IH]; simpl; intros H; auto.
  assert (E : b2 X q = b1 X q) by (apply H; now left).
  rewrite E.
  destruct (IH (b1 X q)) as [Hr Hi].
  - intros Y q' Hin. apply H. now right.
  - now rewrite Hr, Hi.
Qed.

(** ** The query service *)

Lemma getDigimonById_result (b : Backend) (id : JsValue) :
  result b (getDigimonById id) =
  let r := b _ (DigimonById id) in
  if is_failure (error r) then Thrown (Error Msg.getDigimonById)
  else Returned (formatDigimon (data r)).
Proof.
  unfold getDigimonById. rewrite result_bind. simpl.
  now destruct (is_failure _).
Qed.

Lemma getDigimonById_issued (b : Backend) (id : JsValue) :
  issued b (getDigimonById id) = [any (DigimonById id)].
Proof.
  unfold getDigimonById. rewrite issued_bind. simpl.
  now destruct (is_failure _).
Qed.

Lemma is_failure_no_rows (e : PgError) :
  code e = "PGRST116" -> is_failure (Some e) = false.
Proof.
  intros H. unfold is_failure. now rewrite bool_decide_eq_true_2.
Qed.

Lemma is_failure_other (e : PgError) :
  code e <> "PGRST116" -> is_failure (Some e) = true.
Proof.
  intros H. unfold is_failure. now rewrite bool_decide_eq_false_2.
Qed.

(** C4: GetById returns the formatted record when a row matches: a record,
    not the absence value, whose six fields are those of the row; it returns
    the absence value when the backend signals "no rows" (error code
    PGRST116), and throws the operation's error on any other backend error.
    On a record the route GET /:id replies 200 with it, and on the absence
    value it replies 404 with the envelope
    [{success: false, error: "Digimon não encontrado", statusCode: 404}]. *)
Theorem getDigimonById_cases (b : Backend) (request : Request) :
  let key := field (params request) "id" in
  let r := b _ (DigimonById key) in
  (forall row, error r = None -> data r = Some row ->
     result b (getDigimonById key) = Returned (formatDigimon (Some row))
     /\ exists d,
          result b (getDigimonById key) = Returned (Some d)
          /\ id d = field row "id"
          /\ number d = field row "number"
          /\ name d = field row "name"
          /\ stage d = field row "stage"
          /\ attribute d = field row "attribute"
          /\ image_url d = field row "image_url"
          /\ result b (api GetById request) =
               Returned {| status := 200;
                           body := SuccessEnvelope (PDigimon d) Msg.found |})
  /\ (forall e, error r = Some e -> code e = "PGRST116" -> data r = None ->
     result b (getDigimonById key) = Returned None)
  /\ (forall e, error r = Some e -> code e <> "PGRST116" ->
     result b (getDigimonById key) = Thrown (Error Msg.getDigimonById))
  /\ (result b (getDigimonById key) = Returned None ->
     result b (api GetById request) =
       Returned {| status := 404;
                   body := ErrorEnvelope Msg.not_found (Some 404) |}
     /\ success (ErrorEnvelope Msg.not_found (Some 404)) = false).
Proof.
  intros key r. split; [|split; [|split]].
  - intros row He Hd.
    assert (E : result b (getDigimonById key) =
                Returned (formatDigimon (Some row))).
    { rewrite getDigimonById_result. fold r. cbv zeta. now rewrite He, Hd. }
    split; [exact E|].
    eexists. split; [rewrite E; reflexivity|].
    do 6 (split; [reflexivity|]).
    unfold api, digimonRoutes, id_handler.
    rewrite result_bind. fold key. now rewrite E.
  - intros e He Hc Hd. rewrite getDigimonById_result. fold r.
    cbv zeta. now rewrite He, (is_failure_no_rows e Hc), Hd.
  - intros e He Hc. rewrite getDigimonById_result. fold r.
    cbv zeta. now rewrite He, (is_failure_other e Hc).
  - intros H. split; [|reflexivity].
    unfold api, digimonRoutes, id_handler.
    rewrite result_bind. fold key. now rewrite H.
Qed.

Lemma getDigimonById_cases_witness :
  result empty_backend (getDigimonById (VNum (Fin 7))) = Returned None
  /\ result empty_backend (api GetById (request_id 7)) =
       Returned {| status := 404;
                   body := ErrorEnvelope Msg.not_found (Some 404) |}
  /\ result failing_backend (getDigimonById (VNum (Fin 7))) =
       Thrown (Error Msg.getDigimonById)
  /\ result (agumon_backend (answer None None) 1)
       (getDigimonById (VNum (Fin 1))) =
       Returned (formatDigimon (Some agumon))
  /\ exists d,
       result (agumon_backend (answer None None) 1)
         (getDigimonById (VNum (Fin 1))) = Returned (Some d)
       /\ name d = VStr (lit "Agumon")
       /\ number d = VNum (Fin 21)
       /\ image_url d = VNull.
Proof.
  destruct (getDigimonById_cases empty_backend (request_id 7))
    as (_ & Habs & _ & Hroute).
  destruct (getDigimonById_cases failing_backend (request_id 7))
    as (_ & _ & Hfail & _).
  destruct (getDigimonById_cases (agumon_backend (answer None None) 1)
              (request_id 1)) as (Hrow & _).
  assert (H : result empty_backend (getDigimonById (VNum (Fin 7))) =
              Returned None).
  { apply (Habs no_rows); reflexivity. }
  split; [exact H|]. split; [apply Hroute; exact H|].
  split; [apply (Hfail timeout); [reflexivity|]; vm_compute; discriminate|].
  destruct (Hrow agumon) as (Hf & d & Hd & _ & Hnum & Hname & _ & _ & Himg & _);
    [reflexivity | reflexivity |].
  split; [exact Hf|].
  exists d. split; [exact Hd|].
  split; [exact Hname|]. split; [exact Hnum | exact Himg].
Defined.

(** C5: when the creature is absent, GetEvolutionData returns
    [{digimon: null}], the only query sent is the lookup by id, and the
    result does not depend on the evolutions or requirements tables. *)
Theorem getEvolutionData_absent (b : Backend) (id : JsValue) :
  result b (getDigimonById id) = Returned None ->
  result b (getEvolutionData id) = Returned NoDigimon
  /\ ed_digimon NoDigimon = None
  /\ issued b (getEvolutionData id) = [any (DigimonById id)]
  /\ forall b' : Backend,
       b' _ (DigimonById id) = b _ (DigimonById id) ->
       result b' (getEvolutionData id) = Returned NoDigimon
       /\ issued b' (getEvolutionData id) = [any (DigimonById id)].
Proof.
  intros H.
  assert (G : forall b0 : Backend,
             result b0 (getDigimonById id) = Returned None ->
             result b0 (getEvolutionData id) = Returned NoDigimon
             /\ issued b0 (getEvolutionData id) = [any (DigimonById id)]).
  { intros b0 H0. unfold getEvolutionData.
    rewrite result_bind, issued_bind, H0, getDigimonById_issued. now simpl. }
  destruct (G b H) as [Hr Hi].
  repeat split; auto.
  - apply G. rewrite getDigimonById_result in *. cbv zeta in *. now rewrite H0.
  - apply G. rewrite getDigimonById_result in *. cbv zeta in *. now rewrite H0.
Qed.

Lemma getEvolutionData_absent_witness :
  result empty_backend (getEvolutionData (VNum (Fin 7))) = Returned NoDigimon
  /\ issued empty_backend (getEvolutionData (VNum (Fin 7))) =
       [any (DigimonById (VNum (Fin 7)))].
Proof.
  destruct (getEvolutionData_absent empty_backend (VNum (Fin 7)))
    as (Hr & _ & Hi & _); [reflexivity|].
  split; assumption.
Defined.

(** C6: when the creature exists, an error reported by any of the three
    further queries makes GetEvolutionData throw its error, which carries no
    data; without errors it returns the creature, the formatted forward and
    backward evolutions and the requirement rows as the backend sent them. *)
Theorem getEvolutionData_present (b : Backend) (id : JsValue) (d : Digimon) :
  result b (getDigimonById id) = Returned (Some d) ->
  let r1 := b _ (EvolutionsFrom id) in
  let r2 := b _ (EvolutionsTo id) in
  let r3 := b _ (Requirements id) in
  (error r1 <> None \/ error r2 <> None \/ error r3 <> None ->
     result b (getEvolutionData id) = Thrown (Error Msg.getEvolutionData))
  /\ (forall l1 l2,
        error r1 = None -> error r2 = None -> error r3 = None ->
        data r1 = Some l1 -> data r2 = Some l2 ->
        result b (getEvolutionData id) =
          Returned (Evolution d
                      (map (fun e => formatDigimon (to_digimon e)) l1)
                      (map (fun e => formatDigimon (from_digimon e)) l2)
                      (data r3))).
Proof.
  intros H r1 r2 r3.
  assert (E : result b (getEvolutionData id) =
              match error r1, error r2, error r3 with
              | None, None, None =>
                  match data r1, data r2 with
                  | Some l1, Some l2 =>
                      Returned (Evolution d
                        (map (fun e => formatDigimon (to_digimon e)) l1)
                        (map (fun e => formatDigimon (from_digimon e)) l2)
                        (data r3))
                  | _, _ => Thrown TypeError
                  end
              | _, _, _ => Thrown (Error Msg.getEvolutionData)
              end).
  { unfold getEvolutionData. rewrite result_bind, H. simpl.
    fold r1 r2 r3.
    destruct (error r1), (error r2), (error r3); simpl; auto.
    destruct (data r1), (data r2); simpl; auto. }
  split.
  - intros Herr. rewrite E.
    destruct (error r1), (error r2), (error r3); auto.
    destruct Herr as [C | [C | C]]; now elim C.
  - intros l1 l2 E1 E2 E3 D1 D2. rewrite E, E1, E2, E3, D1, D2. reflexivity.
Qed.

Lemma getEvolutionData_present_witness :
  result (agumon_backend (answer None (Some timeout)) 1)
    (getEvolutionData (VNum (Fin 1))) = Thrown (Error Msg.getEvolutionData)
  /\ result (agumon_backend (answer (Some [greymon]) None) 1)
       (getEvolutionData (VNum (Fin 1))) =
     Returned (Evolution
                 {| id := VNum (Fin 1); number := VNum (Fin 21);
                    name := VStr (lit "Agumon"); stage := VStr (lit "III");
                    attribute := VStr (lit "Vaccine"); image_url := VNull |}
                 [formatDigimon (Some greymon)] [] (Some [greymon])).
Proof.
  split.
  - refine (proj1 (getEvolutionData_present
                     (agumon_backend (answer None (Some timeout)) 1)
                     (VNum (Fin 1)) _ _) _).
    + reflexivity.
    + right; right. discriminate.
  - refine (proj2 (getEvolutionData_present
                     (agumon_backend (answer (Some [greymon]) None) 1)
                     (VNum (Fin 1)) _ _)
              [ {| to_digimon := Some greymon |} ] [] _ _ _ _ _);
      reflexivity.
Defined.

(** ** The routes *)

(** C8: when the [q] parameter sanitizes to the empty string, GET /search
    replies 400 at once: the handler is a plain reply, no query reaches the
    backend and the search of the query service is not run. *)
Theorem search_empty_term {Body : Type}
    (sR : Payload -> jsstring -> Body)
    (pR : list (option Digimon) -> Pagination -> Body)
    (eR : jsstring -> option Z -> Body) (request : Request) :
  sanitizeSearchTerm (field (query request) "q") = [] ->
  digimonRoutes sR pR eR GetSearch request =
    Ret {| status := 400; body := eR Msg.search_required None |}
  /\ forall b : Backend,
       issued b (digimonRoutes sR pR eR GetSearch request) = []
       /\ exists reply,
            result b (digimonRoutes sR pR eR GetSearch request) = Returned reply
            /\ status reply = 400.
Proof.
  intros H.
  assert (E : digimonRoutes sR pR eR GetSearch request =
              Ret {| status := 400; body := eR Msg.search_required None |}).
  { unfold digimonRoutes, search_handler. now rewrite H. }
  split; [exact E|].
  intros b. rewrite E. simpl. eauto.
Qed.

Lemma search_empty_term_witness :
  issued (agumon_backend (answer None None) 1)
    (api GetSearch (request_query {[ "q" := VStr (lit " <> ") ]})) = [].
Proof.
  refine (proj1 (proj2 (search_empty_term successResponse paginatedResponse
                   errorResponse
                   (request_query {[ "q" := VStr (lit " <> ") ]}) _)
                   (agumon_backend (answer None None) 1))).
  reflexivity.
Defined.

(** ** Input validation *)

Lemma remove_angle_brackets_clean (s : jsstring) (c : Z) :
  In c (remove_angle_brackets s) -> c <> 60 /\ c <> 62.
Proof.
  unfold remove_angle_brackets. rewrite <- list_elem_of_In, list_elem_of_filter.
  intros [H _]. apply negb_true_iff, orb_false_iff in H. lia.
Qed.

Lemma In_take {A} (n : nat) (l : list A) (x : A) : In x (take n l) -> In x l.
Proof.
  revert n. induction l as [| y l IH]; intros [| n]; simpl; try tauto.
  intros [H | H]; eauto.
Qed.

Lemma drop_while_split {A} (p : A -> bool) (s : list A) :
  exists pre,
    s = pre ++ drop_while p s
    /\ Forall (fun c => p c = true) pre
    /\ match drop_while p s with
       | [] => True
       | c :: _ => p c = false
       end.
Proof.
  induction s as [| c s (pre & E & F & H)]; simpl.
  - exists []. repeat split. constructor.
  - destruct (p c) eqn:Pc.
    + exists (c :: pre). split; [simpl; now f_equal|].
      split; [now constructor | exact H].
    + exists []. repeat split; [constructor | exact Pc].
Qed.

(** [trim] takes white space, and nothing else, from both ends. *)
Lemma trim_decompose (s : jsstring) :
  exists pre post,
    s = pre ++ trim s ++ post
    /\ white_space pre /\ white_space post /\ trimmed (trim s).
Proof.
  unfold trim, white_space.
  destruct (drop_while_split is_white_space s) as (pre & E1 & F1 & H1).
  set (t := drop_while is_white_space s) in *.
  destruct (drop_while_split is_white_space (rev t)) as (q & E2 & F2 & H2).
  set (u := drop_while is_white_space (rev t)) in *.
  assert (Et : t = rev u ++ rev q).
  { rewrite <- (rev_involutive t), E2, rev_app_distr. reflexivity. }
  exists pre, (rev q). split; [now rewrite <- Et|].
  split; [exact F1|]. split.
  - apply Forall_forall. intros x Hx. rewrite Forall_forall in F2.
    apply F2. apply list_elem_of_In. apply list_elem_of_In in Hx.
    now apply in_rev.
  - split; [|now rewrite rev_involutive].
    destruct (rev u) as [| c w] eqn:Eu; [exact I|].
    rewrite Et in H1. exact H1.
Qed.

Lemma remove_angle_brackets_relation (s : jsstring) :
  without_angle_brackets s (remove_angle_brackets s).
Proof.
  unfold remove_angle_brackets, jsstring.
  induction s as [| c s IH]; [constructor|].
  destruct (Z.eq_dec c 60) as [E1 | N1];
    [|destruct (Z.eq_dec c 62) as [E2 | N2]].
  - rewrite filter_cons_False by (subst; simpl; discriminate).
    apply wab_drop; [now left | exact IH].
  - rewrite filter_cons_False by (subst; simpl; discriminate).
    apply wab_drop; [now right | exact IH].
  - rewrite filter_cons_True.
    + apply wab_keep; [unfold is_angle_bracket; lia | exact IH].
    + apply negb_true_iff, orb_false_iff. now rewrite !Z.eqb_neq.
Qed.

(** C3: [sanitizeSearchTerm] is total; it returns the empty string for every
    input that is not a string, and for a string the trimmed string without
    its [<] and [>], cut to 100 code units; the result has at most 100 code
    units and no angle bracket; [<script>a</script>] gives [scripta/script]
    and [null] the empty string.  Trimming and removing are stated on the
    string itself: a string is white space, a core that neither starts nor
    ends with white space, and white space; the result is the first 100
    code units of the core without its angle brackets, every other code
    unit of the core being kept in order. *)
Theorem sanitizeSearchTerm_spec :
  (forall term, sanitizeSearchTerm term = sanitize_spec term)
  /\ (forall term, is_string term = false -> sanitizeSearchTerm term = [])
  /\ (forall s,
        sanitizeSearchTerm (VStr s) =
          take 100 (remove_angle_brackets (trim s)))
  /\ (forall term,
        (length (sanitizeSearchTerm term) <= 100)%nat
        /\ forall c, In c (sanitizeSearchTerm term) -> c <> 60 /\ c <> 62)
  /\ sanitizeSearchTerm (VStr (lit "<script>a</script>")) = lit "scripta/script"
  /\ sanitizeSearchTerm VNull = []
  /\ sanitizeSearchTerm VUndefined = []
  /\ (forall s,
        exists pre core post kept,
          s = pre ++ core ++ post
          /\ white_space pre /\ white_space post /\ trimmed core
          /\ without_angle_brackets core kept
          /\ sanitizeSearchTerm (VStr s) = take 100 kept)
  /\ sanitizeSearchTerm
       (VStr ([32; 9; 10; 160] ++ lit "War <b>Grey</b> mon" ++ [13; 8232; 32]))
     = lit "War bGrey/b mon"
  /\ sanitizeSearchTerm (VStr (lit " < a > ")) = lit " a ".
Proof.
  assert (E : forall term, sanitizeSearchTerm term = sanitize_spec term).
  { intros [| | b | n | s]; try reflexivity.
    - unfold sanitizeSearchTerm. simpl. now rewrite orb_true_r.
    - unfold sanitizeSearchTerm. simpl. now rewrite orb_true_r.
    - destruct s as [| c s]; reflexivity. }
  split; [exact E|].
  split; [intros term H; rewrite E; now destruct term|].
  split; [intros s; now rewrite E|].
  split.
  { intros term. rewrite E. destruct term as [| | b | n | s]; simpl;
      try (split; [lia | intros c []]).
    split.
    - rewrite length_take. lia.
    - intros c H. apply In_take in H.
      now apply remove_angle_brackets_clean in H. }
  do 3 (split; [reflexivity|]).
  split; [|split; reflexivity].
  intros s. destruct (trim_decompose s) as (pre & post & Es & Fp & Fq & Ht).
  exists pre, (trim s), post, (remove_angle_brackets (trim s)).
  split; [exact Es|]. do 3 (split; [assumption|]).
  split; [apply remove_angle_brackets_relation|].
  now rewrite E.
Qed.

Lemma sanitizeSearchTerm_spec_witness :
  sanitizeSearchTerm (VNum (Fin 42)) = []
  /\ sanitizeSearchTerm (VBool true) = []
  /\ forall c, In c (sanitizeSearchTerm (VStr (lit " <b>Agu</b> "))) ->
       c <> 60 /\ c <> 62.
Proof.
  destruct sanitizeSearchTerm_spec as (_ & Hn & _ & Hc & _).
  split; [apply Hn; reflexivity|].
  split; [apply Hn; reflexivity|].
  apply Hc.
Defined.

(** C10: the number 0 counts as missing: [validatePagination(0, x)] has page
    1 and [validatePagination(x, 0)] has limit 50, the default, not the
    lower bound 1. *)
Theorem validatePagination_zero (x : JsValue) :
  page (validatePagination (VNum (Fin 0)) x) = Fin 1
  /\ limit (validatePagination x (VNum (Fin 0))) = Fin 50.
Proof.
  split; reflexivity.
Qed.

(** *** Doubles *)

Lemma round53_small (z : Z) : Z.abs z < 2 ^ 53 -> round53 z = z.
Proof.
  intros H. unfold round53.
  destruct (Z.ltb_spec (Z.abs z) (2 ^ 53)); [reflexivity | lia].
Qed.

Lemma round53_opp (z : Z) : round53 (- z) = - round53 z.
Proof.
  unfold round53. rewrite Z.abs_opp, Z.sgn_opp.
  destruct (Z.abs z <? 2 ^ 53); [reflexivity | lia].
Qed.

Lemma is_double_small (z : Z) : Z.abs z < 2 ^ 53 -> is_double z.
Proof.
  intros H. split; [now apply round53_small | lia].
Qed.

Lemma is_double_opp (z : Z) : is_double z -> is_double (- z).
Proof.
  intros [H1 H2]. split; [rewrite round53_opp; lia | now rewrite Z.abs_opp].
Qed.

Lemma of_Z_double (z : Z) : is_double z -> of_Z z = Fin z.
Proof.
  intros [H1 H2]. unfold of_Z. rewrite H1.
  destruct (Z.leb_spec (2 ^ 1024) (Z.abs z)); [lia | reflexivity].
Qed.

(** *** Decimal numerals *)

Lemma dec_value_acc (l : list Z) (a : Z) :
  fold_left (fun a d => a * 10 + d) l a =
  a * 10 ^ Z.of_nat (length l) + dec_value l.
Proof.
  unfold dec_value. revert a.
  induction l as [| d l IH]; intros a; simpl fold_left.
  - simpl. lia.
  - rewrite IH, (IH (0 * 10 + d)).
    replace (Z.of_nat (length (d :: l))) with (Z.succ (Z.of_nat (length l)))
      by (simpl length; lia).
    rewrite Z.pow_succ_r by lia. ring.
Qed.

Lemma dec_value_app (l1 l2 : list Z) :
  dec_value (l1 ++ l2) =
  dec_value l1 * 10 ^ Z.of_nat (length l2) + dec_value l2.
Proof.
  unfold dec_value at 1. rewrite fold_left_app.
  now rewrite dec_value_acc.
Qed.

Lemma dec_value_zeros (k : nat) : dec_value (replicate k 0) = 0.
Proof.
  induction k as [| k IH]; [reflexivity|].
  change (replicate (S k) 0) with ([0] ++ replicate k 0).
  rewrite dec_value_app, IH. reflexivity.
Qed.

Lemma digits_go_spec (fuel : nat) :
  forall n acc,
    0 <= n < 10 ^ Z.of_nat (S fuel) ->
    exists d rest,
      digits_go (S fuel) n acc = (d :: rest) ++ acc
      /\ Forall is_dec_digit (d :: rest)
      /\ dec_value (d :: rest) = n
      /\ (0 < n -> 1 <= d).
Proof.
  induction fuel as [| fuel IH]; intros n acc Hn.
  - exists (n mod 10), []. change (10 ^ Z.of_nat 1) with 10 in Hn.
    simpl digits_go. rewrite Z.div_small by lia. simpl.
    rewrite Z.mod_small by lia.
    split; [reflexivity|].
    split; [repeat constructor; unfold is_dec_digit; lia|].
    split; [unfold dec_value; simpl; lia | lia].
  - change (digits_go (S (S fuel)) n acc) with
      (if n / 10 =? 0 then n mod 10 :: acc
       else digits_go (S fuel) (n / 10) (n mod 10 :: acc)).
    assert (Hm : 0 <= n mod 10 < 10) by (apply Z.mod_pos_bound; lia).
    assert (Hd : n = 10 * (n / 10) + n mod 10) by (apply Z.div_mod; lia).
    destruct (Z.eqb_spec (n / 10) 0) as [E | E].
    + exists (n mod 10), [].
      split; [reflexivity|].
      split; [repeat constructor; unfold is_dec_digit; lia|].
      split; [unfold dec_value; simpl; lia | lia].
    + assert (Hq : 0 <= n / 10) by (apply Z.div_pos; lia).
      destruct (IH (n / 10) (n mod 10 :: acc)) as (d & rest & E1 & F & V & P).
      { split; [lia|]. apply Z.div_lt_upper_bound; [lia|].
        rewrite <- Z.pow_succ_r by lia.
        replace (Z.succ (Z.of_nat (S fuel))) with (Z.of_nat (S (S fuel)))
          by lia.
        lia. }
      exists d, (rest ++ [n mod 10]). rewrite E1.
      split; [simpl; now rewrite <- app_assoc|].
      split.
      { change (d :: rest ++ [n mod 10]) with ((d :: rest) ++ [n mod 10]).
        apply Forall_app. split; [exact F|].
        repeat constructor; unfold is_dec_digit; lia. }
      split.
      { change (d :: rest ++ [n mod 10]) with ((d :: rest) ++ [n mod 10]).
        rewrite dec_value_app, V. unfold dec_value. simpl. lia. }
      intros _. apply P. lia.
Qed.

Lemma digits_spec (n : Z) :
  0 <= n ->
  exists d rest,
    digits n = d :: rest
    /\ Forall is_dec_digit (d :: rest)
    /\ dec_value (d :: rest) = n
    /\ (0 < n -> 1 <= d).
Proof.
  intros Hn. unfold digits.
  destruct (digits_go_spec (Z.to_nat (Z.log2 n)) n []) as (d & rest & E & H).
  - split; [lia|].
    assert (L : 0 <= Z.log2 n) by apply Z.log2_nonneg.
    replace (Z.of_nat (S (Z.to_nat (Z.log2 n)))) with (Z.succ (Z.log2 n))
      by lia.
    destruct (Z.eq_dec n 0) as [-> | Hz]; [reflexivity|].
    assert (n < 2 ^ Z.succ (Z.log2 n)) by (apply Z.log2_spec; lia).
    assert (2 ^ Z.succ (Z.log2 n) <= 10 ^ Z.succ (Z.log2 n))
      by (apply Z.pow_le_mono_l; lia).
    lia.
  - exists d, rest. rewrite E, app_nil_r. split; [reflexivity | exact H].
Qed.

(** *** Reading numerals with [parseInt] *)

Lemma digit_value_digit_char (d : Z) :
  is_dec_digit d -> digit_value 10 (digit_char d) = Some d.
Proof.
  unfold is_dec_digit, digit_value, digit_char. intros H.
  replace ((48 <=? 48 + d) && (48 + d <=? 57)) with true
    by (symmetry; apply andb_true_iff; split; apply Z.leb_le; lia).
  replace (48 + d - 48) with d by lia.
  destruct (Z.ltb_spec d 10); [reflexivity | lia].
Qed.

Lemma take_while_digits (ds : list Z) (rest : jsstring) :
  Forall is_dec_digit ds -> stops rest ->
  take_while (is_radix_digit 10) (map digit_char ds ++ rest) =
    map digit_char ds.
Proof.
  intros F S. induction F as [| d ds Hd F IH]; simpl.
  - destruct rest as [| c rest]; [reflexivity|]. simpl in *. now rewrite S.
  - unfold is_radix_digit at 1. rewrite digit_value_digit_char by exact Hd.
    now rewrite IH.
Qed.

Lemma radix_value_digits (ds : list Z) :
  Forall is_dec_digit ds -> radix_value 10 (map digit_char ds) = dec_value ds.
Proof.
  intros F. unfold radix_value, dec_value.
  assert (G : forall a,
             fold_left (fun acc c => acc * 10 + default 0 (digit_value 10 c))
               (map digit_char ds) a =
             fold_left (fun a d => a * 10 + d) ds a); [|apply G].
  induction F as [| d ds Hd F IH]; intros a; simpl; [reflexivity|].
  rewrite digit_value_digit_char by exact Hd. apply IH.
Qed.

Lemma is_white_space_digit (d : Z) :
  is_dec_digit d -> is_white_space (digit_char d) = false.
Proof.
  unfold is_dec_digit, is_white_space, digit_char. intros H.
  repeat (apply orb_false_iff; split);
    try (apply andb_false_iff);
    rewrite ?Z.leb_gt, ?Z.eqb_neq; lia.
Qed.

(** A numeral that starts with a digit from 1 to 9, with or without a minus
    sign in front, is read up to where its digits stop. *)
Lemma parseInt_string_numeral (neg : bool) (d : Z) (ds : list Z)
    (rest : jsstring) :
  1 <= d <= 9 -> Forall is_dec_digit ds -> stops rest ->
  parseInt_string
    ((if neg then [45] else []) ++ map digit_char (d :: ds) ++ rest) =
  of_Z ((if neg then -1 else 1) * dec_value (d :: ds)).
Proof.
  intros Hd F S.
  assert (Fd : Forall is_dec_digit (d :: ds))
    by (constructor; [unfold is_dec_digit; lia | exact F]).
  assert (W : is_white_space (digit_char d) = false)
    by (apply is_white_space_digit; unfold is_dec_digit; lia).
  assert (N45 : (digit_char d =? 45) = false)
    by (apply Z.eqb_neq; unfold digit_char; lia).
  assert (N43 : (digit_char d =? 43) = false)
    by (apply Z.eqb_neq; unfold digit_char; lia).
  assert (N48 : (digit_char d =? 48) = false)
    by (apply Z.eqb_neq; unfold digit_char; lia).
  assert (T : take_while (is_radix_digit 10)
                (map digit_char (d :: ds) ++ rest) = map digit_char (d :: ds))
    by (now apply take_while_digits).
  assert (G : forall sign,
             match
               (let '(R, S2) :=
                  match map digit_char (d :: ds) ++ rest with
                  | c :: x :: rest0 =>
                      if (c =? 48) && ((x =? 120) || (x =? 88))
                      then (16, rest0)
                      else (10, map digit_char (d :: ds) ++ rest)
                  | _ => (10, map digit_char (d :: ds) ++ rest)
                  end in
                match take_while (is_radix_digit R) S2 with
                | [] => NaN
                | ds0 => of_Z (sign * radix_value R ds0)
                end)
             with r => r end =
             of_Z (sign * dec_value (d :: ds))).
  { intros sign.
    assert (E : match map digit_char (d :: ds) ++ rest with
                | c :: x :: rest0 =>
                    if (c =? 48) && ((x =? 120) || (x =? 88))
                    then (16, rest0)
                    else (10, map digit_char (d :: ds) ++ rest)
                | _ => (10, map digit_char (d :: ds) ++ rest)
                end = (10, map digit_char (d :: ds) ++ rest)).
    { simpl. destruct (map digit_char ds ++ rest); [reflexivity|].
      now rewrite N48. }
    rewrite E, T. simpl map. now rewrite <- radix_value_digits. }
  unfold parseInt_string.
  destruct neg.
  - change ([45] ++ map digit_char (d :: ds) ++ rest) with
      (45 :: map digit_char (d :: ds) ++ rest).
    change (drop_while is_white_space (45 :: map digit_char (d :: ds) ++ rest))
      with (45 :: map digit_char (d :: ds) ++ rest).
    cbv iota beta. change (45 =? 45) with true. cbv iota.
    apply (G (-1)).
  - change ([] ++ map digit_char (d :: ds) ++ rest) with
      (digit_char d :: map digit_char ds ++ rest).
    simpl drop_while. rewrite W. cbv iota beta. rewrite N45, N43.
    apply (G 1).
Qed.

(** *** [Number::toString] followed by [parseInt] *)

Lemma candidate_sound (v m s : Z) :
  0 < v -> candidate v m = Some s -> round53 (s * 10 ^ m) = v /\ 0 < s.
Proof.
  intros Hv. unfold candidate.
  assert (P : 0 <= 10 ^ m) by (apply Z.pow_nonneg; lia).
  assert (L : 0 <= v / 10 ^ m) by (apply Z_div_nonneg_nonneg; lia).
  assert (Z0 : forall t, round53 (t * 10 ^ m) = v -> 0 <= t -> 0 < t).
  { intros t E Ht. destruct (Z.eq_dec t 0) as [-> | ]; [|lia].
    rewrite Z.mul_0_l in E. change (round53 0) with 0 in E. lia. }
  destruct (Z.eqb_spec (round53 (v / 10 ^ m * 10 ^ m)) v) as [E1 | E1];
    destruct (Z.eqb_spec (round53 ((v / 10 ^ m + 1) * 10 ^ m)) v) as [E2 | E2];
    try discriminate.
  - destruct (_ <? _); [|destruct (_ <? _); [|destruct (Z.even _)]];
      intros [= <-]; split; auto; apply Z0; auto; lia.
  - intros [= <-]. split; auto.
  - intros [= <-]. split; auto. lia.
Qed.

Lemma shortest_go_sound (v d : Z) (ks : list Z) (s m : Z) :
  0 < v -> round53 v = v -> shortest_go v d ks = (s, m) ->
  round53 (s * 10 ^ m) = v /\ 0 < s /\ 0 <= m.
Proof.
  intros Hv Hr. induction ks as [| k ks IH]; simpl.
  - intros [= <- <-]. rewrite Z.mul_1_r. auto with zarith.
  - destruct (Z.leb_spec d k) as [Hk | Hk].
    + intros [= <- <-]. rewrite Z.mul_1_r. auto with zarith.
    + destruct (candidate v (d - k)) as [s' |] eqn:C; [|exact IH].
      intros [= <- <-]. destruct (candidate_sound v (d - k) s' Hv C).
      repeat split; auto. lia.
Qed.

Lemma shortest_sound (v s m : Z) :
  0 < v -> round53 v = v -> shortest v = (s, m) ->
  round53 (s * 10 ^ m) = v /\ 0 < s /\ 0 <= m.
Proof.
  unfold shortest. apply shortest_go_sound.
Qed.

Lemma Forall_zeros (k : nat) : Forall is_dec_digit (replicate k 0).
Proof.
  induction k; simpl; constructor; auto. unfold is_dec_digit; lia.
Qed.

Lemma strip_zeros_head (d : Z) (l : list Z) :
  d <> 0 -> exists frac, strip_zeros (d :: l) = d :: frac.
Proof.
  intros H. simpl. destruct (strip_zeros l) as [| t ts].
  - destruct (Z.eqb_spec d 0); [contradiction | eauto].
  - eauto.
Qed.

(** Below [10 ^ 21] the digits printed for a double read back as it. *)
Lemma parseInt_positive_plain (neg : bool) (v : Z) :
  0 < v < 10 ^ 21 -> is_double v ->
  parseInt_string ((if neg then [45] else []) ++ positive_toString v) =
  Fin ((if neg then -1 else 1) * v).
Proof.
  intros Hv Hdb. unfold positive_toString.
  destruct (shortest v) as [s m] eqn:Es.
  destruct (shortest_sound v s m) as (R & Hs & Hm); try tauto; [apply Hdb|].
  destruct (Z.ltb_spec v (10 ^ 21)) as [_ | ?]; [|lia].
  destruct (digits_spec s) as (d & rest & Ed & F & V & P); [lia|].
  rewrite Ed.
  change ((d :: rest) ++ replicate (Z.to_nat m) 0) with
    (d :: (rest ++ replicate (Z.to_nat m) 0)).
  rewrite <- (app_nil_r (map digit_char _)).
  rewrite parseInt_string_numeral.
  - change (d :: rest ++ replicate (Z.to_nat m) 0) with
      ((d :: rest) ++ replicate (Z.to_nat m) 0).
    rewrite dec_value_app, V, dec_value_zeros, length_replicate, Z2Nat.id
      by lia.
    rewrite Z.add_0_r.
    destruct neg.
    + replace (-1 * (s * 10 ^ m)) with (- (s * 10 ^ m)) by lia.
      unfold of_Z. rewrite round53_opp, R.
      destruct Hdb as [_ B].
      destruct (Z.leb_spec (2 ^ 1024) (Z.abs (- v))); [lia|].
      f_equal; lia.
    + rewrite Z.mul_1_l. unfold of_Z. rewrite R.
      destruct Hdb as [_ B].
      destruct (Z.leb_spec (2 ^ 1024) (Z.abs v)); [lia|].
      f_equal; lia.
  - inversion F; subst. unfold is_dec_digit in *. specialize (P Hs). lia.
  - inversion F; subst. apply Forall_app. split; [assumption|].
    apply Forall_zeros.
  - exact I.
Qed.

(** From [10 ^ 21] on the exponent form is printed, and [parseInt] reads its
    first digit only. *)
Lemma parseInt_positive_exponent (neg : bool) (v : Z) :
  10 ^ 21 <= v -> is_double v ->
  exists d,
    1 <= d <= 9
    /\ parseInt_string ((if neg then [45] else []) ++ positive_toString v) =
       Fin ((if neg then -1 else 1) * d).
Proof.
  intros Hv Hdb. unfold positive_toString.
  destruct (shortest v) as [s m] eqn:Es.
  destruct (shortest_sound v s m) as (R & Hs & Hm); try tauto;
    [lia | apply Hdb |].
  destruct (Z.ltb_spec v (10 ^ 21)) as [? | _]; [lia|].
  destruct (digits_spec s) as (d & rest & Ed & F & V & P); [lia|].
  rewrite Ed. specialize (P Hs).
  change ((d :: rest) ++ replicate (Z.to_nat m) 0) with
    (d :: (rest ++ replicate (Z.to_nat m) 0)).
  destruct (strip_zeros_head d (rest ++ replicate (Z.to_nat m) 0))
    as [frac Ef]; [lia|].
  rewrite Ef. exists d.
  assert (Hd : 1 <= d <= 9)
    by (inversion F; subst; unfold is_dec_digit in *; lia).
  split; [exact Hd|].
  set (tail := match frac with
               | [] => []
               | _ :: _ => 46 :: map digit_char frac
               end ++ lit "e+" ++ numeral _).
  change (digit_char d :: tail) with (map digit_char [d] ++ tail).
  rewrite parseInt_string_numeral; auto.
  - unfold dec_value. simpl fold_left.
    rewrite of_Z_double; [f_equal; lia|].
    apply is_double_small. destruct neg; lia.
  - subst tail. destruct frac; reflexivity.
Qed.

(** [parseInt] of a number that is an integer. *)
Lemma parseInt_integer (z : Z) :
  is_double z ->
  (Z.abs z < 10 ^ 21 -> parseInt (VNum (Fin z)) = Fin z)
  /\ (10 ^ 21 <= Z.abs z ->
      exists d, 1 <= d <= 9 /\ parseInt (VNum (Fin z)) = Fin (Z.sgn z * d)).
Proof.
  intros Hdb. unfold parseInt, ToString, Number_toString.
  destruct (Z.eqb_spec z 0) as [-> | Hz].
  { split; [reflexivity|]. intros H. simpl in H. lia. }
  destruct (Z.ltb_spec z 0) as [Hneg | Hpos].
  - assert (Hdb' : is_double (- z)) by now apply is_double_opp.
    split; intros H.
    + change (45 :: positive_toString (- z)) with
        ((if true then [45] else []) ++ positive_toString (- z)).
      rewrite parseInt_positive_plain by (auto; lia). f_equal; lia.
    + destruct (parseInt_positive_exponent true (- z)) as (d & Hd & E);
        [lia | exact Hdb' |].
      exists d. split; [exact Hd|].
      simpl app in E. rewrite E. f_equal; lia.
  - split; intros H.
    + change (positive_toString z) with
        ((if false then [45] else []) ++ positive_toString z).
      rewrite parseInt_positive_plain by (auto; lia). f_equal; lia.
    + destruct (parseInt_positive_exponent false z) as (d & Hd & E);
        [lia | exact Hdb |].
      exists d. split; [exact Hd|].
      simpl app in E. rewrite E. f_equal; lia.
Qed.

(** *** [validatePagination] *)

Lemma max_default_at_least_1 (n : JsNumber) (dflt : Z) :
  1 <= dflt -> at_least_1 (Math_max (Fin 1) (or_default n (Fin dflt))).
Proof.
  intros H. unfold or_default.
  destruct n as [| [|] | z]; simpl; try lia; auto.
  destruct (z =? 0); simpl; lia.
Qed.

Lemma min_max_default_range (n : JsNumber) (lo hi dflt : Z) :
  lo <= dflt -> lo <= hi ->
  exists z,
    Math_min (Fin hi) (Math_max (Fin lo) (or_default n (Fin dflt))) = Fin z
    /\ lo <= z <= hi.
Proof.
  intros H1 H2. unfold or_default.
  destruct n as [| [|] | z]; simpl; eauto with lia.
  destruct (z =? 0); simpl; eauto with lia.
Qed.

Lemma validatePagination_limit_range (pv lv : JsValue) :
  exists z, limit (validatePagination pv lv) = Fin z /\ 1 <= z <= 100.
Proof.
  apply min_max_default_range; lia.
Qed.

Lemma ten21_is_double : is_double (10 ^ 21).
Proof.
  split; vm_compute; reflexivity.
Qed.

(** C1, as amended: for every integer [page] with [1 <= page < 10 ^ 21] and
    every integer [limit] from 1 to 100, [validatePagination(page, limit)]
    returns that pair. *)
Theorem validatePagination_identity (p l : Z) :
  is_double p -> 1 <= p < 10 ^ 21 -> 1 <= l <= 100 ->
  validatePagination (VNum (Fin p)) (VNum (Fin l)) =
    {| page := Fin p; limit := Fin l |}.
Proof.
  intros Hdb Hp Hl. unfold validatePagination.
  destruct (parseInt_integer p Hdb) as [Ep _].
  destruct (parseInt_integer l) as [El _]; [apply is_double_small; lia|].
  rewrite Ep, El by lia.
  unfold or_default, ToBoolean.
  destruct (Z.eqb_spec p 0); [lia|]. destruct (Z.eqb_spec l 0); [lia|].
  simpl. f_equal; f_equal; lia.
Qed.

Lemma validatePagination_identity_witness :
  validatePagination (VNum (Fin 3)) (VNum (Fin 100)) =
    {| page := Fin 3; limit := Fin 100 |}.
Proof.
  apply validatePagination_identity; [apply is_double_small | |]; simpl; lia.
Defined.

(** C1 as stated fails for large pages: [1e21] is an integer, it is printed
    as [1e+21], and [parseInt] reads that as 1. *)
Lemma validatePagination_identity_counterexample :
  is_double (10 ^ 21) /\ 1 <= 10 ^ 21
  /\ validatePagination (VNum (Fin (10 ^ 21))) (VNum (Fin 50)) =
       {| page := Fin 1; limit := Fin 50 |}
  /\ validatePagination (VNum (Fin (10 ^ 21))) (VNum (Fin 50)) <>
       {| page := Fin (10 ^ 21); limit := Fin 50 |}.
Proof.
  split; [exact ten21_is_double|].
  split; [vm_compute; discriminate|].
  split; [vm_compute; reflexivity|].
  vm_compute. discriminate.
Qed.

(** C2, as amended: the returned page is at least 1 and the returned limit
    lies between 1 and 100, whatever the inputs; an integer limit above 100
    and below [10 ^ 21] gives 100, and a negative integer limit gives 1. *)
Theorem validatePagination_clamps (pv lv : JsValue) (l : Z) :
  at_least_1 (page (validatePagination pv lv))
  /\ (exists z, limit (validatePagination pv lv) = Fin z /\ 1 <= z <= 100)
  /\ (is_double l -> 100 < l < 10 ^ 21 ->
      limit (validatePagination pv (VNum (Fin l))) = Fin 100)
  /\ (is_double l -> l < 0 ->
      limit (validatePagination pv (VNum (Fin l))) = Fin 1).
Proof.
  split; [apply max_default_at_least_1; lia|].
  split; [apply validatePagination_limit_range|].
  split.
  - intros Hdb Hl. unfold validatePagination, limit.
    destruct (parseInt_integer l Hdb) as [El _]. rewrite El by lia.
    unfold or_default, ToBoolean. destruct (Z.eqb_spec l 0); [lia|].
    simpl. f_equal; lia.
  - intros Hdb Hl. unfold validatePagination, limit.
    destruct (parseInt_integer l Hdb) as [El Eh].
    destruct (Z_lt_le_dec (Z.abs l) (10 ^ 21)) as [Hs | Hb].
    + rewrite El by lia. unfold or_default, ToBoolean.
      destruct (Z.eqb_spec l 0); [lia|]. simpl. f_equal; lia.
    + destruct (Eh Hb) as (d & Hd & E). rewrite E.
      unfold or_default, ToBoolean.
      assert (S : Z.sgn l = -1) by (apply Z.sgn_neg; lia). rewrite S.
      destruct (Z.eqb_spec (-1 * d) 0); [lia|]. simpl. f_equal; lia.
Qed.

Lemma validatePagination_clamps_witness :
  limit (validatePagination VUndefined (VNum (Fin 150))) = Fin 100
  /\ limit (validatePagination VUndefined (VNum (Fin (-3)))) = Fin 1
  /\ limit (validatePagination VUndefined (VNum (Fin (- 10 ^ 22)))) = Fin 1.
Proof.
  split; [|split].
  - apply (validatePagination_clamps VUndefined VUndefined 150);
      [apply is_double_small|]; simpl; lia.
  - apply (validatePagination_clamps VUndefined VUndefined (-3));
      [apply is_double_small|]; simpl; lia.
  - apply (validatePagination_clamps VUndefined VUndefined (- 10 ^ 22)).
    + split; vm_compute; reflexivity.
    + vm_compute; reflexivity.
Defined.

(** C2 as stated fails at 0, which gives the default 50 and not 1, and for
    large limits: [1e21] gives 1 and not 100. *)
Lemma validatePagination_clamps_counterexample :
  (0 < 1
   /\ limit (validatePagination VUndefined (VNum (Fin 0))) = Fin 50
   /\ limit (validatePagination VUndefined (VNum (Fin 0))) <> Fin 1)
  /\ (is_double (10 ^ 21) /\ 100 < 10 ^ 21
      /\ limit (validatePagination VUndefined (VNum (Fin (10 ^ 21)))) = Fin 1
      /\ limit (validatePagination VUndefined (VNum (Fin (10 ^ 21)))) <>
           Fin 100).
Proof.
  split.
  - split; [lia|]. split; [reflexivity | vm_compute; discriminate].
  - split; [exact ten21_is_double|].
    split; [vm_compute; reflexivity|].
    split; [vm_compute; reflexivity | vm_compute; discriminate].
Qed.

(** *** [Math.ceil(count / limit)] *)

(** Rounding the quotient to the nearest multiple of [1 / P] does not move
    its ceiling as long as [y < 2 * P]. *)
Lemma rounded_quotient_ceiling (x y P q r n c : Z) :
  0 < y -> 0 < P -> y < 2 * P ->
  x * P = q * y + r -> 0 <= r < y ->
  (n = q /\ 2 * r <= y) \/ (n = q + 1 /\ y <= 2 * r) ->
  (c - 1) * P < n <= c * P ->
  (c - 1) * y < x <= c * y.
Proof.
  intros Hy HP HyP E Hr Hn Hc.
  assert (L : (c - 1) * y * P < x * P).
  { destruct Hn as [[-> H] | [-> H]]; nia. }
  assert (U : x * P <= c * y * P).
  { destruct (Z_lt_le_dec q (c * P)) as [Hq | Hq]; [nia|].
    assert (Eq : q = c * P) by (destruct Hn as [[-> H] | [-> H]]; nia).
    assert (Hlt : r < P) by (destruct Hn as [[-> H] | [-> H]]; lia).
    assert (Er : r = (x - c * y) * P) by nia.
    assert (x - c * y = 0) by nia.
    nia. }
  split; nia.
Qed.

Lemma quot_exponent_bound (x y : Z) :
  0 < x < 2 ^ 53 -> 0 < y ->
  let e := quot_exponent x y in
  e <= 0 /\ 2 ^ 52 * y <= x * 2 ^ (- e).
Proof.
  intros Hx Hy. unfold quot_exponent.
  assert (Lx : 2 ^ Z.log2 x <= x < 2 ^ Z.succ (Z.log2 x))
    by (apply Z.log2_spec; lia).
  assert (Ly : 2 ^ Z.log2 y <= y < 2 ^ Z.succ (Z.log2 y))
    by (apply Z.log2_spec; lia).
  assert (Bx : Z.log2 x < 53) by (apply Z.log2_lt_pow2; lia).
  assert (Nx : 0 <= Z.log2 x) by apply Z.log2_nonneg.
  assert (Ny : 0 <= Z.log2 y) by apply Z.log2_nonneg.
  set (lx := Z.log2 x) in *. set (ly := Z.log2 y) in *.
  destruct (Z.leb_spec (y * 2 ^ Z.max 0 (lx - ly))
              (x * 2 ^ Z.max 0 (- (lx - ly)))) as [T | T]; cbv zeta.
  - split; [lia|].
    replace (- (lx - ly - 52)) with (52 - (lx - ly)) by lia.
    destruct (Z_le_gt_dec 0 (lx - ly)) as [D | D].
    + rewrite Z.max_r, Z.max_l in T by lia.
      change (2 ^ 0) with 1 in T. rewrite Z.mul_1_r in T.
      replace (2 ^ 52) with (2 ^ (lx - ly) * 2 ^ (52 - (lx - ly)))
        by (rewrite <- Z.pow_add_r by lia; f_equal; lia).
      assert (0 < 2 ^ (52 - (lx - ly))) by (apply Z.pow_pos_nonneg; lia).
      nia.
    + rewrite Z.max_l, Z.max_r in T by lia.
      change (2 ^ 0) with 1 in T. rewrite Z.mul_1_r in T.
      replace (52 - (lx - ly)) with (52 + - (lx - ly)) by lia.
      rewrite Z.pow_add_r by lia. nia.
  - split; [lia|].
    replace (- (lx - ly - 53)) with (53 + ly - lx) by lia.
    assert (E : 2 ^ (53 + ly - lx) * 2 ^ lx = 2 ^ 52 * 2 ^ Z.succ ly).
    { rewrite <- !Z.pow_add_r by lia. f_equal; lia. }
    assert (0 < 2 ^ (53 + ly - lx)) by (apply Z.pow_pos_nonneg; lia).
    nia.
Qed.

(** For a dividend below [2 ^ 53] the ceiling of the rounded quotient is the
    ceiling of the exact one. *)
Lemma dyadic_ceil_quot_double (x y : Z) :
  0 < x < 2 ^ 53 -> 0 < y ->
  let c := dyadic_ceil (quot_double x y) in
  (c - 1) * y < x <= c * y.
Proof.
  intros Hx Hy.
  destruct (quot_exponent_bound x y Hx Hy) as [He Hb].
  unfold quot_double. set (e := quot_exponent x y) in *.
  rewrite (Z.max_l 0 e), (Z.max_r 0 (- e)) by lia.
  change (2 ^ 0) with 1. rewrite Z.mul_1_r.
  set (P := 2 ^ (- e)) in *.
  assert (HP : 0 < P) by (apply Z.pow_pos_nonneg; lia).
  set (q := x * P / y). set (r := (x * P) mod y).
  assert (E : x * P = q * y + r)
    by (unfold q, r; rewrite (Z.div_mod (x * P) y) at 1; lia).
  assert (Hr : 0 <= r < y) by (apply Z.mod_pos_bound; lia).
  set (n := if (y <? 2 * r) || ((2 * r =? y) && Z.odd q) then q + 1 else q).
  assert (Hn : (n = q /\ 2 * r <= y) \/ (n = q + 1 /\ y <= 2 * r)).
  { unfold n. destruct (Z.ltb_spec y (2 * r)); simpl; [right; lia|].
    destruct (Z.eqb_spec (2 * r) y); simpl; [|left; lia].
    destruct (Z.odd q); [right | left]; lia. }
  cbv zeta. unfold dyadic_ceil.
  apply (rounded_quotient_ceiling x y P q r n); auto; [nia|].
  destruct (Z.leb_spec 0 e).
  - assert (e = 0) by lia. subst P. replace (- e) with 0 by lia.
    replace e with 0 by lia. change (2 ^ 0) with 1. lia.
  - fold P.
    assert (D : - n = P * (- n / P) + (- n) mod P) by (apply Z.div_mod; lia).
    assert (0 <= (- n) mod P < P) by (apply Z.mod_pos_bound; lia).
    nia.
Qed.

Lemma Math_ceil_div_exact (x y : Z) :
  0 <= x < 2 ^ 53 -> 0 < y ->
  exists c, Math_ceil_div (Fin x) (Fin y) = Fin c /\ (c - 1) * y < x <= c * y.
Proof.
  intros Hx Hy. unfold Math_ceil_div.
  destruct (Z.eqb_spec y 0); [lia|].
  destruct (Z.eqb_spec x 0) as [-> | Hz].
  - exists 0. split; [reflexivity | lia].
  - destruct (Z.ltb_spec x 0); [lia|]. destruct (Z.ltb_spec y 0); [lia|].
    simpl Bool.eqb. cbv iota. rewrite !Z.abs_eq by lia.
    eexists. split; [reflexivity|].
    apply dyadic_ceil_quot_double; lia.
Qed.

(** *** The list operation *)

Lemma getAllDigimons_result (b : Backend) (page limit : option JsNumber)
    (stage : JsValue) (dp : DigimonPage) :
  result b (getAllDigimons page limit stage) = Returned dp ->
  exists q : Query (list Row),
    issued b (getAllDigimons page limit stage) = [any q]
    /\ error (b _ q) = None
    /\ pg_page (pagination dp) = default (Fin 1) page
    /\ pg_limit (pagination dp) = default (Fin 50) limit
    /\ total (pagination dp) = count (b _ q)
    /\ totalPages (pagination dp) =
         Math_ceil_div (number_or_null (count (b _ q)))
           (default (Fin 50) limit).
Proof.
  unfold getAllDigimons. rewrite result_bind, issued_bind. simpl.
  set (q := ListDigimons _ _ _).
  destruct (error (b _ q)) as [e |] eqn:Ee; simpl; [discriminate|].
  rewrite result_bind, issued_bind.
  destruct (data (b _ q)) as [rows |]; simpl; [|discriminate].
  intros [= <-]. exists q. simpl. now rewrite Ee.
Qed.

(** C7: a successful List call returns [totalPages = ceil(total / limit)]
    for the row count [total] reported by the backend (a count below
    [2 ^ 53]): [totalPages] is the least integer whose product with [limit]
    reaches [total].  This holds for the service called with a limit of at
    least 1 and for the route GET /, whose limit is between 1 and 100; a
    total of 125 with limit 50 gives 3 pages. *)
Theorem getAllDigimons_totalPages :
  (forall (b : Backend) page stage dp (l tot : Z),
      result b (getAllDigimons page (Some (Fin l)) stage) = Returned dp ->
      1 <= l -> total (pagination dp) = Some (Fin tot) -> 0 <= tot < 2 ^ 53 ->
      (exists q : Query (list Row),
          issued b (getAllDigimons page (Some (Fin l)) stage) = [any q]
          /\ count (b _ q) = Some (Fin tot))
      /\ pg_limit (pagination dp) = Fin l
      /\ exists tp,
           totalPages (pagination dp) = Fin tp
           /\ (tp - 1) * l < tot <= tp * l)
  /\ (forall (Body : Type) (sR : Payload -> jsstring -> Body)
        (pR : list (option Digimon) -> Pagination -> Body)
        (eR : jsstring -> option Z -> Body)
        (b : Backend) (request : Request) (reply : Reply Body),
      result b (digimonRoutes sR pR eR GetList request) = Returned reply ->
      exists dp l,
        reply = {| status := 200;
                   body := pR (dp_data dp) (pagination dp) |}
        /\ pg_limit (pagination dp) = Fin l /\ 1 <= l <= 100
        /\ forall tot,
             total (pagination dp) = Some (Fin tot) -> 0 <= tot < 2 ^ 53 ->
             exists tp,
               totalPages (pagination dp) = Fin tp
               /\ (tp - 1) * l < tot <= tp * l)
  /\ (forall (b : Backend) page stage dp,
      result b (getAllDigimons page (Some (Fin 50)) stage) = Returned dp ->
      total (pagination dp) = Some (Fin 125) ->
      totalPages (pagination dp) = Fin 3).
Proof.
  assert (S : forall (b : Backend) page stage dp (l tot : Z),
             result b (getAllDigimons page (Some (Fin l)) stage) =
               Returned dp ->
             1 <= l -> total (pagination dp) = Some (Fin tot) ->
             0 <= tot < 2 ^ 53 ->
             (exists q : Query (list Row),
                 issued b (getAllDigimons page (Some (Fin l)) stage) = [any q]
                 /\ count (b _ q) = Some (Fin tot))
             /\ pg_limit (pagination dp) = Fin l
             /\ exists tp,
                  totalPages (pagination dp) = Fin tp
                  /\ (tp - 1) * l < tot <= tp * l).
  { intros b page stage dp l tot H Hl Ht Htot.
    destruct (getAllDigimons_result b page (Some (Fin l)) stage dp H)
      as (q & Hi & _ & _ & Hlim & Hc & Htp).
    split; [exists q; split; [exact Hi | congruence]|].
    split; [exact Hlim|].
    rewrite Htp, <- Hc, Ht. simpl.
    apply Math_ceil_div_exact; lia. }
  split; [exact S|]. split.
  - intros Body sR pR eR b request reply H.
    unfold digimonRoutes, list_handler in H. rewrite result_bind in H.
    destruct (validatePagination_limit_range
                (field (query request) "page")
                (field (query request) "limit")) as (l & El & Hl).
    rewrite El in H.
    destruct (result b (getAllDigimons _ _ _)) as [dp | e] eqn:R;
      [|discriminate].
    injection H as <-. exists dp, l.
    split; [reflexivity|].
    destruct (getAllDigimons_result b _ _ _ dp R)
      as (q & _ & _ & _ & Hlim & _).
    split; [exact Hlim|]. split; [exact Hl|].
    intros tot Ht Htot.
    destruct (S b _ _ dp l tot R) as (_ & _ & Htp); auto; lia.
  - intros b page stage dp H Ht.
    destruct (S b page stage dp 50 125 H) as (_ & _ & tp & E & Htp);
      auto; try lia.
    rewrite E. f_equal; lia.
Qed.

Lemma getAllDigimons_totalPages_witness :
  exists dp,
    result (agumon_backend (answer None None) 125)
      (getAllDigimons (Some (Fin 1)) (Some (Fin 50)) VUndefined) =
      Returned dp
    /\ totalPages (pagination dp) = Fin 3.
Proof.
  eexists. split; [reflexivity|].
  apply (proj2 (proj2 getAllDigimons_totalPages)
           (agumon_backend (answer None None) 125) (Some (Fin 1)) VUndefined);
    reflexivity.
Defined.

(** * Further properties of the service and the routes *)

(** ** [formatDigimon] *)

(** X1: [formatDigimon] shows the six public fields and nothing else: two
    rows are formatted alike exactly when they agree on these fields, so
    any other column of a row can be set without changing the result. *)
Theorem formatDigimon_public_fields (r1 r2 : Row) :
  (formatDigimon (Some r1) = formatDigimon (Some r2) <->
   forall k, In k public_fields -> field r1 k = field r2 k)
  /\ (forall k v,
        ~ In k public_fields ->
        formatDigimon (Some (<[k:=v]> r1)) = formatDigimon (Some r1)).
Proof.
  assert (E : forall a c : Row,
             (forall k, In k public_fields -> field a k = field c k) ->
             formatDigimon (Some a) = formatDigimon (Some c)).
  { intros a c H. unfold formatDigimon.
    rewrite !(H _) by (unfold public_fields; simpl; tauto). reflexivity. }
  split; [split|].
  - intros H k Hk. unfold formatDigimon in H. injection H as H1 H2 H3 H4 H5 H6.
    unfold public_fields in Hk. simpl in Hk.
    destruct Hk as [<- | [<- | [<- | [<- | [<- | [<- | []]]]]]]; assumption.
  - apply E.
  - intros k v Hk. apply E. intros k' Hk'. unfold field.
    rewrite lookup_insert_ne; [reflexivity|]. intros ->. contradiction.
Qed.

Lemma formatDigimon_public_fields_witness :
  formatDigimon (Some (<["created_at" := VNull]> agumon)) =
    formatDigimon (Some agumon).
Proof.
  apply (proj2 (formatDigimon_public_fields agumon agumon)).
  unfold public_fields. simpl. intros H.
  repeat (destruct H as [H | H]; [discriminate H|]). exact H.
Defined.

(** ** Lookups by id and by name *)

Lemma getDigimonByName_result (b : Backend) (name : JsValue) :
  result b (getDigimonByName name) =
  let r := b _ (DigimonByName name) in
  if is_failure (error r) then Thrown (Error Msg.getDigimonByName)
  else Returned (formatDigimon (data r)).
Proof.
  unfold getDigimonByName. rewrite result_bind. simpl.
  now destruct (is_failure _).
Qed.

Lemma getDigimonByName_issued (b : Backend) (name : JsValue) :
  issued b (getDigimonByName name) = [any (DigimonByName name)].
Proof.
  unfold getDigimonByName. rewrite issued_bind. simpl.
  now destruct (is_failure _).
Qed.

(** X2: GET /name/:name sends exactly one query, the lookup by name.  A
    backend error other than PGRST116 makes it throw the error of the
    lookup; otherwise a row gives status 200 with the formatted creature,
    and no row gives status 404. *)
Theorem name_route_cases {Body : Type}
    (sR : Payload -> jsstring -> Body)
    (pR : list (option Digimon) -> Pagination -> Body)
    (eR : jsstring -> option Z -> Body)
    (b : Backend) (request : Request) :
  let name := field (params request) "name" in
  let r := b _ (DigimonByName name) in
  issued b (digimonRoutes sR pR eR GetByName request) =
    [any (DigimonByName name)]
  /\ (is_failure (error r) = true ->
      result b (digimonRoutes sR pR eR GetByName request) =
        Thrown (Error Msg.getDigimonByName))
  /\ (is_failure (error r) = false -> data r = None ->
      result b (digimonRoutes sR pR eR GetByName request) =
        Returned {| status := 404; body := eR Msg.not_found (Some 404) |})
  /\ (forall row,
        is_failure (error r) = false -> data r = Some row ->
        exists d,
          formatDigimon (Some row) = Some d
          /\ result b (digimonRoutes sR pR eR GetByName request) =
               Returned {| status := 200;
                           body := sR (PDigimon d) Msg.found |}).
Proof.
  intros name r. unfold digimonRoutes, name_handler. fold name.
  rewrite issued_bind, getDigimonByName_issued.
  rewrite result_bind, getDigimonByName_result. fold r. cbv zeta.
  split.
  - destruct (is_failure (error r)); [reflexivity|].
    now destruct (formatDigimon (data r)).
  - split; [intros ->; reflexivity|].
    split; [intros -> ->; reflexivity|].
    intros row -> ->. eexists. split; reflexivity.
Qed.

Lemma name_route_cases_witness :
  result empty_backend
    (api GetByName {| query := ∅;
                      params := {[ "name" := VStr (lit "Nobody") ]} |}) =
    Returned {| status := 404; body := ErrorEnvelope Msg.not_found (Some 404) |}
  /\ result failing_backend
       (api GetByName {| query := ∅;
                         params := {[ "name" := VStr (lit "Agumon") ]} |}) =
       Thrown (Error Msg.getDigimonByName).
Proof.
  split.
  - apply (name_route_cases successResponse paginatedResponse errorResponse
             empty_backend); reflexivity.
  - apply (name_route_cases successResponse paginatedResponse errorResponse
             failing_backend); reflexivity.
Defined.

(** ** Search *)

Lemma searchDigimons_run (b : Backend) (searchTerm : jsstring)
    (limit : option JsNumber) :
  let q := SearchByName (lit "%" ++ searchTerm ++ lit "%")
             (default (Fin 10) limit) in
  issued b (searchDigimons searchTerm limit) = [any q]
  /\ result b (searchDigimons searchTerm limit) =
     match error (b _ q), data (b _ q) with
     | Some _, _ => Thrown (Error Msg.searchDigimons)
     | None, None => Thrown TypeError
     | None, Some rows =>
         Returned (map (fun d => formatDigimon (Some d)) rows)
     end.
Proof.
  intros q. unfold searchDigimons. cbv zeta. fold q.
  rewrite issued_bind, result_bind.
  change (result b (await q)) with (Returned (b _ q)).
  change (issued b (await q)) with [any q]. cbv iota beta.
  destruct (error (b _ q)); [split; reflexivity|].
  destruct (data (b _ q)); split; reflexivity.
Qed.

(** X3: [searchDigimons] sends one query, for the names that contain the
    term (pattern [%term%]) with the given limit, 10 when none is given.  An
    error makes it throw; otherwise it returns one creature per row, in the
    order of the rows, and none of them is null. *)
Theorem searchDigimons_rows (b : Backend) (searchTerm : jsstring)
    (limit : option JsNumber) :
  let q := SearchByName (lit "%" ++ searchTerm ++ lit "%")
             (default (Fin 10) limit) in
  issued b (searchDigimons searchTerm limit) = [any q]
  /\ (error (b _ q) <> None ->
      result b (searchDigimons searchTerm limit) =
        Thrown (Error Msg.searchDigimons))
  /\ (forall rows,
        error (b _ q) = None -> data (b _ q) = Some rows ->
        exists ds,
          result b (searchDigimons searchTerm limit) = Returned ds
          /\ length ds = length rows
          /\ forall i row,
               rows !! i = Some row ->
               ds !! i = Some (formatDigimon (Some row))
               /\ formatDigimon (Some row) <> None).
Proof.
  intros q. destruct (searchDigimons_run b searchTerm limit) as [Hi Hr].
  fold q in Hi, Hr. split; [exact Hi|]. split.
  - intros He. rewrite Hr. destruct (error (b _ q)); [reflexivity|].
    now elim He.
  - intros rows He Hd. rewrite Hr, He, Hd. eexists. split; [reflexivity|].
    split; [apply length_map|].
    intros i row Hrow. split; [|discriminate].
    now rewrite list_lookup_fmap, Hrow.
Qed.

Lemma searchDigimons_rows_witness :
  (exists ds,
      result (many_backend 2) (searchDigimons (lit "mon") None) = Returned ds
      /\ length ds = 2%nat)
  /\ result failing_backend (searchDigimons (lit "mon") (Some (Fin 5))) =
       Thrown (Error Msg.searchDigimons).
Proof.
  split.
  - destruct (searchDigimons_rows (many_backend 2) (lit "mon") None)
      as (_ & _ & H).
    destruct (H [agumon; greymon]) as (ds & Hr & Hl & _);
      [reflexivity | reflexivity |].
    exists ds. split; [exact Hr | exact Hl].
  - apply (searchDigimons_rows failing_backend (lit "mon") (Some (Fin 5))).
    discriminate.
Defined.

Lemma sanitizeSearchTerm_unfold (term : JsValue) :
  sanitizeSearchTerm term =
  match term with
  | VStr s => take 100 (remove_angle_brackets (trim s))
  | _ => []
  end.
Proof.
  destruct term as [| | b | n | s]; try reflexivity.
  - unfold sanitizeSearchTerm. simpl. now rewrite orb_true_r.
  - unfold sanitizeSearchTerm. simpl. now rewrite orb_true_r.
  - destruct s; reflexivity.
Qed.

Lemma sanitizeSearchTerm_clean (term : JsValue) :
  (length (sanitizeSearchTerm term) <= 100)%nat
  /\ forall c, In c (sanitizeSearchTerm term) -> c <> 60 /\ c <> 62.
Proof.
  rewrite sanitizeSearchTerm_unfold.
  destruct term as [| | b | n | s]; simpl; try (split; [lia | intros c []]).
  split.
  - rewrite length_take. lia.
  - intros c H. apply In_take in H. now apply remove_angle_brackets_clean in H.
Qed.

Lemma search_limit_range (v : JsValue) :
  exists l, search_limit v = Fin l /\ 1 <= l <= 50.
Proof.
  apply min_max_default_range; lia.
Qed.

(** X4: when the term is not empty after sanitizing, GET /search sends one
    query: names containing the sanitized term, which has at most 100 code
    units and no angle bracket, with a limit between 1 and 50.  An error
    makes the route throw; otherwise it replies 200 with one creature per
    row and a message that counts them. *)
Theorem search_route_query {Body : Type}
    (sR : Payload -> jsstring -> Body)
    (pR : list (option Digimon) -> Pagination -> Body)
    (eR : jsstring -> option Z -> Body)
    (b : Backend) (request : Request) :
  let term := sanitizeSearchTerm (field (query request) "q") in
  term <> [] ->
  exists l,
    let q := SearchByName (lit "%" ++ term ++ lit "%") (Fin l) in
    search_limit (field (query request) "limit") = Fin l
    /\ 1 <= l <= 50
    /\ (length term <= 100)%nat
    /\ (forall c, In c term -> c <> 60 /\ c <> 62)
    /\ issued b (digimonRoutes sR pR eR GetSearch request) = [any q]
    /\ (error (b _ q) <> None ->
        result b (digimonRoutes sR pR eR GetSearch request) =
          Thrown (Error Msg.searchDigimons))
    /\ (forall rows,
          error (b _ q) = None -> data (b _ q) = Some rows ->
          result b (digimonRoutes sR pR eR GetSearch request) =
            Returned
              {| status := 200;
                 body := sR (PDigimons
                               (map (fun d => formatDigimon (Some d)) rows))
                           (Msg.n_found (length rows)) |}).
Proof.
  intros term Hterm.
  destruct (search_limit_range (field (query request) "limit"))
    as (l & El & Hl).
  exists l. cbv zeta.
  destruct (sanitizeSearchTerm_clean (field (query request) "q")) as [Hlen Hc].
  fold term in Hlen, Hc.
  do 4 (split; [assumption|]).
  unfold digimonRoutes, search_handler. fold term.
  change (Math_min (Fin 50) _) with
    (search_limit (field (query request) "limit")).
  rewrite El.
  assert (T : negb (ToBoolean (VStr term)) = false)
    by (destruct term; [contradiction | reflexivity]).
  rewrite T, issued_bind, result_bind.
  destruct (searchDigimons_run b term (Some (Fin l))) as [Hi Hr].
  simpl default in Hi, Hr. rewrite Hi, Hr.
  set (q := SearchByName _ _).
  split; [|split].
  - destruct (error (b _ q)); [reflexivity|].
    destruct (data (b _ q)); reflexivity.
  - intros He. destruct (error (b _ q)); [reflexivity | now elim He].
  - intros rows -> ->. simpl. now rewrite length_map.
Qed.

Lemma search_route_query_witness :
  issued (many_backend 2)
    (api GetSearch (request_query {[ "q" := VStr (lit " <b>gre ") ]})) =
  [any (SearchByName (lit "%bgre%") (Fin 10))].
Proof.
  destruct (search_route_query successResponse paginatedResponse
              errorResponse (many_backend 2)
              (request_query {[ "q" := VStr (lit " <b>gre ") ]}))
    as (l & El & _ & _ & _ & Hi & _); [discriminate|].
  vm_compute in El. injection El as <-. exact Hi.
Defined.

Lemma remove_angle_brackets_nil (s : jsstring) :
  remove_angle_brackets s = [] <-> Forall is_angle_bracket s.
Proof.
  unfold remove_angle_brackets, is_angle_bracket.
  rewrite Forall_forall. split.
  - intros E x Hx.
    destruct (Z.eq_dec x 60) as [| N1]; [now left|].
    destruct (Z.eq_dec x 62) as [| N2]; [now right|].
    exfalso.
    assert (H : x ∈ filter (fun c => negb ((c =? 60) || (c =? 62)) = true) s).
    { apply list_elem_of_filter. split; [|exact Hx].
      apply negb_true_iff, orb_false_iff. now rewrite !Z.eqb_neq. }
    rewrite E in H. inversion H.
  - intros F.
    destruct (filter _ s) as [| x l] eqn:E; [reflexivity|]. exfalso.
    assert (H : x ∈ filter (fun c => negb ((c =? 60) || (c =? 62)) = true) s)
      by (rewrite E; left).
    apply list_elem_of_filter in H. destruct H as [H Hx].
    apply negb_true_iff, orb_false_iff in H. rewrite !Z.eqb_neq in H.
    specialize (F x Hx). lia.
Qed.

(** X5: GET /search answers 400 exactly when [q] is not a string or is made
    of angle brackets only once trimmed (the empty string included); in
    every other case a reply, if there is one, has status 200. *)
Theorem search_route_status {Body : Type}
    (sR : Payload -> jsstring -> Body)
    (pR : list (option Digimon) -> Pagination -> Body)
    (eR : jsstring -> option Z -> Body)
    (b : Backend) (request : Request) (reply : Reply Body) :
  let rejected :=
    match field (query request) "q" with
    | VStr s => Forall is_angle_bracket (trim s)
    | _ => True
    end in
  result b (digimonRoutes sR pR eR GetSearch request) = Returned reply ->
  (status reply = 400 <-> rejected)
  /\ (status reply = 200 <-> ~ rejected).
Proof.
  intros rejected.
  assert (E : sanitizeSearchTerm (field (query request) "q") = [] <->
              rejected).
  { rewrite sanitizeSearchTerm_unfold. unfold rejected.
    destruct (field (query request) "q") as [| | ? | ? | s]; try tauto.
    rewrite <- remove_angle_brackets_nil.
    destruct (remove_angle_brackets (trim s)); simpl; split; congruence. }
  unfold digimonRoutes, search_handler.
  destruct (sanitizeSearchTerm (field (query request) "q")) as [| c term]
    eqn:Et.
  - simpl. intros [= <-]. simpl.
    assert (R : rejected) by now apply E.
    split; split; try tauto; lia.
  - assert (N : ~ rejected) by (intros H; apply E in H; discriminate).
    change (negb (ToBoolean (VStr (c :: term)))) with false. cbv iota.
    rewrite result_bind.
    destruct (result b (searchDigimons _ _)); [|discriminate].
    simpl. intros [= <-]. simpl. split; split; try tauto; try lia.
Qed.

Lemma search_route_status_witness :
  status {| status := 400;
            body := errorResponse Msg.search_required None |} = 400
  <-> Forall is_angle_bracket (trim (lit " <> ")).
Proof.
  refine (proj1 (search_route_status successResponse paginatedResponse
                   errorResponse (many_backend 2)
                   (request_query {[ "q" := VStr (lit " <> ") ]}) _ _)).
  reflexivity.
Defined.

(** ** Pagination parameters and limits *)

Lemma parseInt_string_of_numeral (z : Z) (rest : jsstring) :
  0 < z -> stops rest -> parseInt_string (numeral z ++ rest) = of_Z z.
Proof.
  intros Hz Hs. unfold numeral.
  destruct (digits_spec z) as (d & ds & E & F & V & P); [lia|].
  rewrite E.
  assert (Hd : 1 <= d <= 9).
  { specialize (P Hz). inversion F; subst. unfold is_dec_digit in *. lia. }
  change (map digit_char (d :: ds) ++ rest) with
    ((if false then [45] else []) ++ map digit_char (d :: ds) ++ rest).
  rewrite parseInt_string_numeral; auto.
  - now rewrite V, Z.mul_1_l.
  - now inversion F.
Qed.

Lemma non_numeric_parseInt (v : JsValue) : non_numeric v -> parseInt v = NaN.
Proof.
  destruct v as [| | [|] | [| [|] | z] | s]; simpl; try reflexivity;
    try contradiction.
  unfold parseInt, ToString, parseInt_string.
  destruct (drop_while is_white_space s) as [| c rest]; [reflexivity|].
  intros (N43 & N45 & Hc).
  destruct (Z.eqb_spec c 45); [contradiction|].
  destruct (Z.eqb_spec c 43); [contradiction|].
  assert (N48 : (c =? 48) = false).
  { apply Z.eqb_neq. intros ->. discriminate Hc. }
  destruct rest as [| x rest]; rewrite ?N48; cbn [andb take_while];
    rewrite Hc; reflexivity.
Qed.

Lemma validatePagination_parsed (pv lv : JsValue) (p l : Z) :
  parseInt pv = Fin p -> 1 <= p -> parseInt lv = Fin l -> 1 <= l <= 100 ->
  validatePagination pv lv = {| page := Fin p; limit := Fin l |}.
Proof.
  intros Ep Hp El Hl. unfold validatePagination. rewrite Ep, El.
  unfold or_default, ToBoolean.
  destruct (Z.eqb_spec p 0); [lia|]. destruct (Z.eqb_spec l 0); [lia|].
  simpl. f_equal; f_equal; lia.
Qed.

(** X6: the limit of GET /search agrees with its schema (integer from 1 to
    50, default 10): an accepted limit, given as a number or in decimal
    digits, is used as it is; a value that holds no number gives the
    default; and whatever the input, the limit used is one the schema
    accepts. *)
Theorem search_limit_schema :
  (forall z,
      accepts schemas.searchDigimons_limit z ->
      search_limit (VNum (Fin z)) = Fin z
      /\ forall rest, stops rest ->
           search_limit (VStr (numeral z ++ rest)) = Fin z)
  /\ (forall v,
        non_numeric v ->
        Some (search_limit v) = Fin <$> default_ schemas.searchDigimons_limit)
  /\ (forall v,
        exists l,
          search_limit v = Fin l /\ accepts schemas.searchDigimons_limit l).
Proof.
  split; [|split].
  - intros z [Hmin Hmax]. simpl in Hmin. specialize (Hmax 50 eq_refl).
    assert (Hdb : is_double z) by (apply is_double_small; lia).
    assert (G : forall v, parseInt v = Fin z -> search_limit v = Fin z).
    { intros v E. unfold search_limit. rewrite E.
      unfold or_default, ToBoolean. destruct (Z.eqb_spec z 0); [lia|].
      simpl. f_equal; lia. }
    split.
    + apply G. apply parseInt_integer; [exact Hdb | lia].
    + intros rest Hs. apply G. unfold parseInt, ToString.
      rewrite parseInt_string_of_numeral by (auto; lia).
      now apply of_Z_double.
  - intros v Hv. unfold search_limit.
    now rewrite (non_numeric_parseInt v Hv).
  - intros v. destruct (search_limit_range v) as (l & E & Hl).
    exists l. split; [exact E|]. split; [simpl; lia|].
    intros m [= <-]. lia.
Qed.

Lemma search_limit_schema_witness :
  search_limit (VNum (Fin 25)) = Fin 25
  /\ search_limit (VStr (lit "25")) = Fin 25
  /\ Some (search_limit (VStr (lit "many"))) = Some (Fin 10).
Proof.
  destruct search_limit_schema as (Ha & Hd & _).
  destruct (Ha 25) as [Hn Hs].
  { split; [simpl; lia|]. intros m [= <-]. lia. }
  split; [exact Hn|]. split.
  - apply (Hs []). exact I.
  - apply (Hd (VStr (lit "many"))). vm_compute. repeat split; discriminate.
Defined.

Lemma round53_ge1 (p : Z) : 1 <= p -> 1 <= round53 p.
Proof.
  intros Hp. unfold round53. rewrite Z.abs_eq by lia.
  destruct (Z.ltb_spec p (2 ^ 53)); [lia|].
  rewrite (Z.sgn_pos p), Z.mul_1_l by lia.
  assert (L : 53 <= Z.log2 p) by (apply Z.log2_le_pow2; lia).
  set (e := Z.log2 p - 52).
  assert (P : 0 < 2 ^ e) by (apply Z.pow_pos_nonneg; lia).
  assert (Hl : 2 ^ Z.log2 p <= p < 2 ^ Z.succ (Z.log2 p))
    by (apply Z.log2_spec; lia).
  assert (X : 2 ^ Z.log2 p = 2 ^ 52 * 2 ^ e).
  { rewrite <- Z.pow_add_r by lia. f_equal; lia. }
  assert (Hq : 1 <= p / 2 ^ e) by (apply Z.div_le_lower_bound; lia).
  destruct (_ || _); nia.
Qed.

Lemma max_default_of_Z (p dflt : Z) :
  1 <= p ->
  Math_max (Fin 1) (or_default (of_Z p) (Fin dflt)) = of_Z p
  /\ at_least_1 (of_Z p).
Proof.
  intros Hp. pose proof (round53_ge1 p Hp) as Hr. unfold of_Z.
  destruct (Z.leb_spec (2 ^ 1024) (Z.abs (round53 p))).
  - destruct (Z.ltb_spec p 0); [lia|]. split; [reflexivity | exact I].
  - unfold or_default, ToBoolean.
    destruct (Z.eqb_spec (round53 p) 0); [lia|].
    simpl. split; [f_equal; lia | exact Hr].
Qed.

(** X7: [validatePagination] reads decimal digits in a string: for an
    integer [page >= 1] and a [limit] from 1 to 100 written in digits,
    followed or not by other text that does not start with a digit, it
    returns that limit and, as the page, the number nearest to the written
    integer, which is at least 1: the integer itself when a double holds it
    (every integer below [2 ^ 53] does), and a neighbour otherwise.  Unlike
    for a number, there is no bound at [10 ^ 21] on the page. *)
Theorem validatePagination_strings (p l : Z) (rest1 rest2 : jsstring) :
  1 <= p -> 1 <= l <= 100 -> stops rest1 -> stops rest2 ->
  validatePagination (VStr (numeral p ++ rest1)) (VStr (numeral l ++ rest2)) =
    {| page := of_Z p; limit := Fin l |}
  /\ at_least_1 (of_Z p)
  /\ (is_double p -> of_Z p = Fin p)
  /\ (p < 2 ^ 53 -> of_Z p = Fin p).
Proof.
  intros Hp Hl S1 S2.
  destruct (max_default_of_Z p 1 Hp) as [Hm Ha].
  split; [|split; [exact Ha|split]].
  - unfold validatePagination, parseInt, ToString.
    rewrite !parseInt_string_of_numeral by (auto; lia).
    rewrite Hm. rewrite (of_Z_double l) by (apply is_double_small; lia).
    unfold or_default, ToBoolean. destruct (Z.eqb_spec l 0); [lia|].
    simpl. do 2 f_equal; lia.
  - apply of_Z_double.
  - intros H. apply of_Z_double, is_double_small. lia.
Qed.

Lemma validatePagination_strings_witness :
  validatePagination (VStr (lit "1000000000000000000000"))
    (VStr (lit "20.5")) =
    {| page := Fin (10 ^ 21); limit := Fin 20 |}
  /\ validatePagination (VStr (lit "9007199254740993")) (VStr (lit "50")) =
       {| page := Fin 9007199254740992; limit := Fin 50 |}.
Proof.
  split.
  - refine (proj1 (validatePagination_strings (10 ^ 21) 20 [] (lit ".5")
                     _ _ _ _)); try reflexivity; try exact I; lia.
  - refine (proj1 (validatePagination_strings 9007199254740993 50 [] []
                     _ _ _ _)); try exact I; lia.
Defined.

(** X8: an input in which [parseInt] finds no number (absent, null, a
    boolean, NaN, an infinity, or a string that does not start with a sign
    or a digit after white space) gives the defaults, page 1 and limit 50,
    which are the defaults of the schema of GET /. *)
Theorem validatePagination_defaults (v w : JsValue) :
  non_numeric v ->
  page (validatePagination v w) = Fin 1
  /\ limit (validatePagination w v) = Fin 50
  /\ validatePagination v v = {| page := Fin 1; limit := Fin 50 |}
  /\ Some (page (validatePagination v w)) =
       Fin <$> default_ schemas.listDigimons_page
  /\ Some (limit (validatePagination w v)) =
       Fin <$> default_ schemas.listDigimons_limit.
Proof.
  intros H. unfold validatePagination, page, limit.
  rewrite (non_numeric_parseInt v H). repeat split.
Qed.

Lemma validatePagination_defaults_witness :
  validatePagination (VStr (lit "  abc")) (VStr (lit "  abc")) =
    {| page := Fin 1; limit := Fin 50 |}.
Proof.
  refine (proj1 (proj2 (proj2 (validatePagination_defaults
                                 (VStr (lit "  abc")) VUndefined _)))).
  vm_compute. repeat split; discriminate.
Defined.

(** ** Statistics *)

(** X9: [getStats] always sends both queries, the row count and the count
    by stage, also when the first one fails.  It throws when either reports
    an error and otherwise returns the count of the first with the data of
    the second; GET /stats then replies 200 with these. *)
Theorem getStats_cases {Body : Type}
    (sR : Payload -> jsstring -> Body)
    (pR : list (option Digimon) -> Pagination -> Body)
    (eR : jsstring -> option Z -> Body)
    (b : Backend) (request : Request) :
  let r1 := b _ CountDigimons in
  let r2 := b _ CountByStage in
  issued b getStats = [any CountDigimons; any CountByStage]
  /\ issued b (digimonRoutes sR pR eR GetStats request) =
       [any CountDigimons; any CountByStage]
  /\ (error r1 <> None \/ error r2 <> None ->
      result b getStats = Thrown (Error Msg.getStats)
      /\ result b (digimonRoutes sR pR eR GetStats request) =
           Thrown (Error Msg.getStats))
  /\ (error r1 = None -> error r2 = None ->
      result b getStats =
        Returned {| total_digimons := count r1; count_by_stage := data r2 |}
      /\ result b (digimonRoutes sR pR eR GetStats request) =
           Returned
             {| status := 200;
                body := sR (PStats {| total_digimons := count r1;
                                      count_by_stage := data r2 |})
                          Msg.stats |}).
Proof.
  intros r1 r2.
  assert (Hi : issued b getStats = [any CountDigimons; any CountByStage]).
  { unfold getStats. rewrite !issued_bind.
    change (issued b (await CountDigimons)) with [any CountDigimons].
    change (result b (await CountDigimons)) with (Returned r1).
    cbv iota beta. rewrite issued_bind.
    change (issued b (await CountByStage)) with [any CountByStage].
    change (result b (await CountByStage)) with (Returned r2).
    cbv iota beta. destruct (error r1), (error r2); reflexivity. }
  assert (Hr : result b getStats =
               match error r1, error r2 with
               | None, None =>
                   Returned {| total_digimons := count r1;
                               count_by_stage := data r2 |}
               | _, _ => Thrown (Error Msg.getStats)
               end).
  { unfold getStats. rewrite !result_bind.
    change (result b (await CountDigimons)) with (Returned r1).
    cbv iota beta. rewrite result_bind.
    change (result b (await CountByStage)) with (Returned r2).
    cbv iota beta. destruct (error r1), (error r2); reflexivity. }
  assert (Hroute : issued b (digimonRoutes sR pR eR GetStats request) =
                   [any CountDigimons; any CountByStage]).
  { unfold digimonRoutes, stats_handler. rewrite issued_bind, Hi.
    destruct (result b getStats); simpl; reflexivity. }
  split; [exact Hi|]. split; [exact Hroute|].
  unfold digimonRoutes, stats_handler. rewrite !result_bind, Hr.
  split.
  - intros H. destruct (error r1), (error r2); auto.
    destruct H as [H | H]; now elim H.
  - intros -> ->. split; reflexivity.
Qed.

Lemma getStats_cases_witness :
  result failing_backend getStats = Thrown (Error Msg.getStats)
  /\ result (many_backend 1471) getStats =
       Returned {| total_digimons := Some (Fin 1471);
                   count_by_stage := Some [agumon] |}.
Proof.
  split.
  - refine (proj1 (proj1 (proj2 (proj2 (getStats_cases successResponse
              paginatedResponse errorResponse failing_backend
              (request_id 1)))) _)).
    left. discriminate.
  - refine (proj1 (proj2 (proj2 (proj2 (getStats_cases successResponse
              paginatedResponse errorResponse (many_backend 1471)
              (request_id 1)))) _ _)); reflexivity.
Defined.

(** ** Evolution data *)

Lemma getEvolutionData_run (b : Backend) (id : JsValue) :
  let r1 := b _ (EvolutionsFrom id) in
  let r2 := b _ (EvolutionsTo id) in
  let r3 := b _ (Requirements id) in
  (result b (getEvolutionData id) =
   match result b (getDigimonById id) with
   | Thrown e => Thrown e
   | Returned None => Returned NoDigimon
   | Returned (Some d) =>
       match error r1, error r2, error r3 with
       | None, None, None =>
           match data r1, data r2 with
           | Some l1, Some l2 =>
               Returned (Evolution d
                 (map (fun e => formatDigimon (to_digimon e)) l1)
                 (map (fun e => formatDigimon (from_digimon e)) l2)
                 (data r3))
           | _, _ => Thrown TypeError
           end
       | _, _, _ => Thrown (Error Msg.getEvolutionData)
       end
   end)
  /\ issued b (getEvolutionData id) =
     any (DigimonById id) ::
     match result b (getDigimonById id) with
     | Returned (Some _) =>
         [any (EvolutionsFrom id); any (EvolutionsTo id);
          any (Requirements id)]
     | _ => []
     end.
Proof.
  intros r1 r2 r3. unfold getEvolutionData.
  rewrite result_bind, issued_bind, getDigimonById_issued.
  destruct (result b (getDigimonById id)) as [[d |] | e];
    [|split; reflexivity|split; reflexivity].
  simpl. fold r1 r2 r3.
  destruct (error r1), (error r2), (error r3); simpl;
    try (split; reflexivity).
  destruct (data r1), (data r2); simpl; split; reflexivity.
Qed.

(** X10: when the creature is found, [getEvolutionData] sends the lookup
    and then the three further queries in a fixed order, whatever they
    answer: a failing query does not stop the later ones.  When the lookup
    itself throws, that error is passed on and no further query is sent. *)
Theorem getEvolutionData_queries (b : Backend) (id : JsValue) :
  (forall d,
      result b (getDigimonById id) = Returned (Some d) ->
      issued b (getEvolutionData id) =
        [any (DigimonById id); any (EvolutionsFrom id);
         any (EvolutionsTo id); any (Requirements id)])
  /\ (forall e,
        result b (getDigimonById id) = Thrown e ->
        e = Error Msg.getDigimonById
        /\ result b (getEvolutionData id) = Thrown e
        /\ issued b (getEvolutionData id) = [any (DigimonById id)]).
Proof.
  destruct (getEvolutionData_run b id) as [Hr Hi]. split.
  - intros d H. now rewrite Hi, H.
  - intros e H. rewrite Hr, Hi, H. repeat split.
    rewrite getDigimonById_result in H. cbv zeta in H.
    destruct (is_failure _); congruence.
Qed.

Lemma getEvolutionData_queries_witness :
  issued (agumon_backend (answer None (Some timeout)) 1)
    (getEvolutionData (VNum (Fin 1))) =
    [any (DigimonById (VNum (Fin 1))); any (EvolutionsFrom (VNum (Fin 1)));
     any (EvolutionsTo (VNum (Fin 1))); any (Requirements (VNum (Fin 1)))]
  /\ result failing_backend (getEvolutionData (VNum (Fin 1))) =
       Thrown (Error Msg.getDigimonById).
Proof.
  split.
  - eapply (proj1 (getEvolutionData_queries _ _)). reflexivity.
  - apply (proj2 (getEvolutionData_queries failing_backend (VNum (Fin 1)))
             (Error Msg.getDigimonById)).
    reflexivity.
Defined.

(** X11: GET /:id/evolutions replies 404 after the lookup alone when the
    creature is absent.  When it is found and the three further queries
    succeed, the reply is 200 and carries the creature with one entry per
    evolution row in each direction, in the order of the rows; an entry is
    null exactly when the row has no creature joined. *)
Theorem evolutions_route_cases {Body : Type}
    (sR : Payload -> jsstring -> Body)
    (pR : list (option Digimon) -> Pagination -> Body)
    (eR : jsstring -> option Z -> Body)
    (b : Backend) (request : Request) :
  let id := field (params request) "id" in
  let route := digimonRoutes sR pR eR GetEvolutions request in
  (result b (getDigimonById id) = Returned None ->
   result b route =
     Returned {| status := 404; body := eR Msg.not_found (Some 404) |}
   /\ issued b route = [any (DigimonById id)])
  /\ (forall d l1 l2,
        result b (getDigimonById id) = Returned (Some d) ->
        error (b _ (EvolutionsFrom id)) = None ->
        error (b _ (EvolutionsTo id)) = None ->
        error (b _ (Requirements id)) = None ->
        data (b _ (EvolutionsFrom id)) = Some l1 ->
        data (b _ (EvolutionsTo id)) = Some l2 ->
        exists tos froms,
          result b route =
            Returned
              {| status := 200;
                 body := sR (PEvolution
                               (Evolution d tos froms
                                  (data (b _ (Requirements id)))))
                           Msg.evolution |}
          /\ length tos = length l1 /\ length froms = length l2
          /\ (forall i e,
                l1 !! i = Some e ->
                tos !! i = Some (formatDigimon (to_digimon e))
                /\ (formatDigimon (to_digimon e) = None <->
                    to_digimon e = None))
          /\ (forall i e,
                l2 !! i = Some e ->
                froms !! i = Some (formatDigimon (from_digimon e))
                /\ (formatDigimon (from_digimon e) = None <->
                    from_digimon e = None))).
Proof.
  intros id route. subst route. unfold digimonRoutes, evolutions_handler.
  fold id. rewrite result_bind, issued_bind.
  destruct (getEvolutionData_run b id) as [Hr Hi]. rewrite Hr, Hi.
  assert (N : forall o : option Row, formatDigimon o = None <-> o = None)
    by (intros [r |]; simpl; split; congruence).
  split.
  - intros ->. split; reflexivity.
  - intros d l1 l2 -> -> -> -> -> ->. eexists _, _.
    split; [reflexivity|].
    split; [apply length_map|]. split; [apply length_map|].
    split; intros i e He; (split; [|apply N]);
      now rewrite list_lookup_fmap, He.
Qed.

Lemma evolutions_route_cases_witness :
  result empty_backend (api GetEvolutions (request_id 9)) =
    Returned {| status := 404; body := ErrorEnvelope Msg.not_found (Some 404) |}
  /\ exists reply,
       result (many_backend 2) (api GetEvolutions (request_id 2)) =
         Returned reply
       /\ status reply = 200.
Proof.
  split.
  - apply (evolutions_route_cases successResponse paginatedResponse
             errorResponse empty_backend (request_id 9)).
    reflexivity.
  - destruct (proj2 (evolutions_route_cases successResponse paginatedResponse
                       errorResponse (many_backend 2) (request_id 2))
                {| id := VNum (Fin 2); number := VNum (Fin 45);
                   name := VStr (lit "Greymon"); stage := VStr (lit "IV");
                   attribute := VUndefined; image_url := VUndefined |}
                [ {| to_digimon := None |} ]
                [ {| from_digimon := Some agumon |} ])
      as (tos & froms & Hr & _); try reflexivity.
    eexists. split; [exact Hr | reflexivity].
Defined.

(** ** The list operation: rows asked for and stage filter *)

Lemma getAllDigimons_issued (b : Backend) (page limit : option JsNumber)
    (stage : JsValue) :
  let page' := default (Fin 1) page in
  let limit' := default (Fin 50) limit in
  let from := num_mul (num_sub page' (Fin 1)) limit' in
  let to := num_sub (num_add from limit') (Fin 1) in
  issued b (getAllDigimons page limit stage) =
    [any (ListDigimons from to
            (if ToBoolean stage then Some stage else None))].
Proof.
  cbv zeta. unfold getAllDigimons. cbv zeta.
  set (q := ListDigimons _ _ _). rewrite issued_bind.
  change (issued b (await q)) with [any q].
  change (result b (await q)) with (Returned (b _ q)). cbv iota beta.
  destruct (error (b _ q)); [reflexivity|].
  rewrite issued_bind. destruct (data (b _ q)); reflexivity.
Qed.

Lemma of_Z_small (z : Z) : Z.abs z < 2 ^ 53 -> of_Z z = Fin z.
Proof.
  intros H. now apply of_Z_double, is_double_small.
Qed.

(** X12: for a page [p >= 1] and a limit [l >= 1] with [p * l < 2 ^ 53],
    the list operation asks for the rows [(p - 1) * l] to [p * l - 1]: [l]
    rows, starting at row 0 on page 1 and right after the last row of the
    page before.  GET / does so for a page and a limit given as numbers,
    the limit being at most 100. *)
Theorem getAllDigimons_window {Body : Type}
    (sR : Payload -> jsstring -> Body)
    (pR : list (option Digimon) -> Pagination -> Body)
    (eR : jsstring -> option Z -> Body)
    (b : Backend) (p l : Z) (stage : JsValue) :
  1 <= p -> 1 <= l -> p * l < 2 ^ 53 ->
  let filter := if ToBoolean stage then Some stage else None in
  issued b (getAllDigimons (Some (Fin p)) (Some (Fin l)) stage) =
    [any (ListDigimons (Fin ((p - 1) * l)) (Fin (p * l - 1)) filter)]
  /\ (l <= 100 ->
      forall request,
        field (query request) "page" = VNum (Fin p) ->
        field (query request) "limit" = VNum (Fin l) ->
        field (query request) "stage" = stage ->
        issued b (digimonRoutes sR pR eR GetList request) =
          [any (ListDigimons (Fin ((p - 1) * l)) (Fin (p * l - 1)) filter)]).
Proof.
  intros Hp Hl Hpl filter.
  assert (E : issued b (getAllDigimons (Some (Fin p)) (Some (Fin l)) stage) =
              [any (ListDigimons (Fin ((p - 1) * l)) (Fin (p * l - 1))
                      filter)]).
  { rewrite getAllDigimons_issued. cbv zeta. simpl default.
    unfold num_sub, num_neg, num_add, num_mul.
    rewrite (of_Z_small (p + - (1))) by lia.
    rewrite (of_Z_small ((p + - (1)) * l)) by nia.
    rewrite (of_Z_small ((p + - (1)) * l + l)) by nia.
    rewrite (of_Z_small ((p + - (1)) * l + l + - (1))) by nia.
    replace ((p + - (1)) * l + l + - (1)) with (p * l - 1) by lia.
    replace ((p + - (1)) * l) with ((p - 1) * l) by lia.
    reflexivity. }
  split; [exact E|].
  intros Hl' request Epage Elimit Estage.
  unfold digimonRoutes, list_handler. rewrite issued_bind.
  assert (P : p < 2 ^ 53) by nia.
  rewrite Epage, Elimit, Estage.
  rewrite (validatePagination_parsed (VNum (Fin p)) (VNum (Fin l)) p l);
    try lia.
  - simpl page. simpl limit. rewrite E.
    destruct (result b _); simpl; now rewrite ?app_nil_r.
  - apply parseInt_integer; [apply is_double_small|]; lia.
  - apply parseInt_integer; [apply is_double_small|]; lia.
Qed.

Lemma getAllDigimons_window_witness :
  issued empty_backend
    (api GetList
       (request_query {[ "page" := VNum (Fin 3); "limit" := VNum (Fin 20) ]}))
  = [any (ListDigimons (Fin 40) (Fin 59) None)].
Proof.
  refine (proj2 (getAllDigimons_window successResponse paginatedResponse
                   errorResponse empty_backend 3 20 VUndefined _ _ _)
            _ _ _ _ _); try reflexivity; lia.
Defined.

(** X13: the stage filter is applied exactly for a stage that is truthy.
    Every stage the schema of GET / allows is applied as given, and an
    absent or empty stage lists the creatures of all stages. *)
Theorem getAllDigimons_stage_filter (b : Backend)
    (page limit : option JsNumber) (stage : JsValue) :
  exists from to filter,
    issued b (getAllDigimons page limit stage) =
      [any (ListDigimons from to filter)]
    /\ (filter = Some stage <-> ToBoolean stage = true)
    /\ (filter = None <-> ToBoolean stage = false)
    /\ (forall s,
          In s schemas.listDigimons_stage -> stage = VStr s ->
          filter = Some (VStr s))
    /\ (stage = VUndefined \/ stage = VStr [] -> filter = None).
Proof.
  rewrite getAllDigimons_issued. cbv zeta. eexists _, _, _.
  split; [reflexivity|].
  split; [destruct (ToBoolean stage); split; congruence|].
  split; [destruct (ToBoolean stage); split; congruence|].
  split.
  - intros s Hs ->.
    assert (T : ToBoolean (VStr s) = true).
    { unfold schemas.listDigimons_stage in Hs. simpl in Hs.
      repeat (destruct Hs as [<- | Hs]; [reflexivity|]). destruct Hs. }
    now rewrite T.
  - intros [-> | ->]; reflexivity.
Qed.

Lemma getAllDigimons_stage_filter_witness :
  exists from to,
    issued empty_backend (getAllDigimons None None (VStr (lit "Armor"))) =
      [any (ListDigimons from to (Some (VStr (lit "Armor"))))].
Proof.
  destruct (getAllDigimons_stage_filter empty_backend None None
              (VStr (lit "Armor")))
    as (from & to & filter & Hi & _ & _ & Hs & _).
  exists from, to. rewrite Hi, (Hs (lit "Armor")); [reflexivity| |reflexivity].
  unfold schemas.listDigimons_stage. simpl. tauto.
Defined.

(** ** All routes: status codes and logging *)

(** X14: a reply of a route has status 200, 400 or 404 and no other: 400
    comes from GET /search only, 404 from the three lookups only, and the
    list and the statistics reply 200 whenever they reply. *)
Theorem route_statuses {Body : Type}
    (sR : Payload -> jsstring -> Body)
    (pR : list (option Digimon) -> Pagination -> Body)
    (eR : jsstring -> option Z -> Body)
    (b : Backend) (r : Route) (request : Request) (reply : Reply Body) :
  result b (digimonRoutes sR pR eR r request) = Returned reply ->
  (status reply = 200 \/ status reply = 400 \/ status reply = 404)
  /\ (status reply = 400 -> r = GetSearch)
  /\ (status reply = 404 -> r = GetById \/ r = GetEvolutions \/ r = GetByName)
  /\ (r = GetList \/ r = GetStats -> status reply = 200).
Proof.
  assert (D : forall z : Z, z = 200 \/ z = 400 \/ z = 404 ->
              z = 200 \/ z = 400 \/ z = 404) by auto.
  destruct r; unfold digimonRoutes.
  - unfold list_handler. rewrite result_bind.
    destruct (result b _); [|discriminate]. simpl. intros [= <-]. simpl.
    repeat split; auto; try discriminate.
  - unfold search_handler. destruct (negb _).
    + simpl. intros [= <-]. simpl.
      repeat split; auto; try discriminate; intros [? | ?]; discriminate.
    + rewrite result_bind. destruct (result b _); [|discriminate].
      simpl. intros [= <-]. simpl.
      repeat split; auto; try discriminate; intros [? | ?]; discriminate.
  - unfold stats_handler. rewrite result_bind.
    destruct (result b _); [|discriminate]. simpl. intros [= <-]. simpl.
    repeat split; auto; try discriminate.
  - unfold id_handler. rewrite result_bind.
    destruct (result b _) as [[d |] |]; [| |discriminate];
      simpl; intros [= <-]; simpl;
      repeat split; auto; try discriminate; intros [? | ?]; discriminate.
  - unfold evolutions_handler. rewrite result_bind.
    destruct (result b _) as [ev |]; [|discriminate].
    destruct (ed_digimon ev); simpl; intros [= <-]; simpl;
      repeat split; auto; try discriminate; intros [? | ?]; discriminate.
  - unfold name_handler. rewrite result_bind.
    destruct (result b _) as [[d |] |]; [| |discriminate];
      simpl; intros [= <-]; simpl;
      repeat split; auto; try discriminate; intros [? | ?]; discriminate.
Qed.

Lemma route_statuses_witness :
  GetById = GetById \/ GetById = GetEvolutions \/ GetById = GetByName.
Proof.
  refine (proj1 (proj2 (proj2 (route_statuses successResponse
            paginatedResponse errorResponse empty_backend GetById
            (request_id 7)
            {| status := 404; body := ErrorEnvelope Msg.not_found (Some 404) |}
            _))) _); reflexivity.
Defined.

Lemma logged_bind {A B} (b : Backend) (m : Prog A) (f : A -> Prog B) :
  logged b (m ≫= f) =
  logged b m ++
  match result b m with
  | Returned a => logged b (f a)
  | Thrown _ => []
  end.
Proof.
  unfold mbind, Prog_bind.
  induction m as [a | e | X q k IH | l es k IH]; simpl; auto.
  now rewrite IH.
Qed.

Lemma getDigimonById_logs (b : Backend) (id : JsValue) :
  logs_failure_once b (getDigimonById id)
  /\ (forall d, result b (getDigimonById id) = Returned d ->
      logged b (getDigimonById id) = []).
Proof.
  unfold logs_failure_once, getDigimonById.
  rewrite result_bind, logged_bind. simpl.
  destruct (is_failure _); simpl; split; auto; discriminate.
Qed.

(** X15: every operation of the service writes exactly one log entry when
    it throws its error, and none when it returns (or when a null [data]
    raises a TypeError): a failure is logged once, where it is detected,
    also when [getEvolutionData] fails in its lookup by id. *)
Theorem service_logs_failure_once (b : Backend) :
  (forall page limit stage,
      logs_failure_once b (getAllDigimons page limit stage))
  /\ (forall id, logs_failure_once b (getDigimonById id))
  /\ (forall name, logs_failure_once b (getDigimonByName name))
  /\ (forall term limit, logs_failure_once b (searchDigimons term limit))
  /\ (forall id, logs_failure_once b (getEvolutionData id))
  /\ logs_failure_once b getStats.
Proof.
  unfold logs_failure_once.
  split; [|split; [|split; [|split; [|split]]]].
  - intros page limit stage. unfold getAllDigimons. cbv zeta.
    set (q := ListDigimons _ _ _).
    rewrite result_bind, logged_bind.
    change (result b (await q)) with (Returned (b _ q)).
    change (logged b (await q)) with (@nil (string * list (option PgError))).
    cbv iota beta. rewrite app_nil_l.
    destruct (error _); [reflexivity|].
    destruct (data _); reflexivity.
  - intros id. apply getDigimonById_logs.
  - intros name. unfold getDigimonByName.
    rewrite result_bind, logged_bind. simpl.
    destruct (is_failure _); reflexivity.
  - intros term limit. unfold searchDigimons. cbv zeta.
    rewrite result_bind, logged_bind.
    set (q := SearchByName _ _).
    change (result b (await q)) with (Returned (b _ q)).
    change (logged b (await q)) with (@nil (string * list (option PgError))).
    cbv iota beta. rewrite app_nil_l.
    destruct (error _); [reflexivity|].
    destruct (data _); reflexivity.
  - intros id. unfold getEvolutionData.
    rewrite result_bind, logged_bind.
    destruct (getDigimonById_logs b id) as [H1 H2].
    unfold logs_failure_once in H1.
    destruct (result b (getDigimonById id)) as [[d |] | e].
    + rewrite (H2 (Some d) eq_refl). simpl.
      destruct (error _), (error _), (error _); simpl; try reflexivity.
      destruct (data (b _ (EvolutionsFrom id))); [|reflexivity].
      destruct (data (b _ (EvolutionsTo id))); reflexivity.
    + rewrite (H2 None eq_refl). reflexivity.
    + rewrite app_nil_r. exact H1.
  - unfold getStats. rewrite result_bind, logged_bind.
    change (result b (await CountDigimons)) with
      (Returned (b _ CountDigimons)).
    change (logged b (await CountDigimons)) with
      (@nil (string * list (option PgError))).
    cbv iota beta. rewrite app_nil_l, result_bind, logged_bind.
    change (result b (await CountByStage)) with (Returned (b _ CountByStage)).
    change (logged b (await CountByStage)) with
      (@nil (string * list (option PgError))).
    cbv iota beta. rewrite app_nil_l.
    destruct (error (b _ CountDigimons)), (error (b _ CountByStage));
      reflexivity.
Qed.

(** ** Normalising twice *)

Lemma round53_scaled (q e : Z) :
  0 <= e -> 2 ^ 52 <= q <= 2 ^ 53 -> round53 (q * 2 ^ e) = q * 2 ^ e.
Proof.
  intros He Hq.
  assert (P : 0 < 2 ^ e) by (apply Z.pow_pos_nonneg; lia).
  destruct (Z_lt_le_dec (q * 2 ^ e) (2 ^ 53)) as [Hs | Hb].
  { apply round53_small. rewrite Z.abs_eq by nia. exact Hs. }
  assert (E1 : 1 <= e \/ q = 2 ^ 53).
  { destruct (Z.eq_dec e 0) as [-> |]; [|lia].
    change (2 ^ 0) with 1 in Hb. lia. }
  unfold round53. rewrite Z.abs_eq by nia.
  destruct (Z.ltb_spec (q * 2 ^ e) (2 ^ 53)); [lia|].
  assert (Sg : Z.sgn (q * 2 ^ e) = 1) by (apply Z.sgn_pos; nia).
  rewrite Sg, Z.mul_1_l.
  destruct (Z.eq_dec q (2 ^ 53)) as [-> | Hne].
  - assert (L : Z.log2 (2 ^ 53 * 2 ^ e) = 53 + e).
    { rewrite <- Z.pow_add_r by lia. apply Z.log2_pow2. lia. }
    rewrite L. replace (53 + e - 52) with (e + 1) by lia.
    replace (e + 1 - 1) with e by lia.
    assert (X : 2 ^ 53 * 2 ^ e = 2 ^ 52 * 2 ^ (e + 1)).
    { rewrite <- !Z.pow_add_r by lia. f_equal; lia. }
    rewrite X.
    assert (P' : 0 < 2 ^ (e + 1)) by (apply Z.pow_pos_nonneg; lia).
    rewrite Z.div_mul, Z.mod_mul by lia.
    destruct (Z.ltb_spec (2 ^ e) 0); [lia|].
    destruct (Z.eqb_spec 0 (2 ^ e)); [lia|]. reflexivity.
  - assert (He1 : 1 <= e) by (destruct E1; [assumption | contradiction]).
    assert (L : Z.log2 (q * 2 ^ e) = 52 + e).
    { apply Z.log2_unique; [lia|].
      replace (Z.succ (52 + e)) with (53 + e) by lia.
      rewrite !Z.pow_add_r by lia. nia. }
    rewrite L. replace (52 + e - 52) with e by lia.
    rewrite Z.div_mul, Z.mod_mul by lia.
    assert (H2 : 0 < 2 ^ (e - 1)) by (apply Z.pow_pos_nonneg; lia).
    destruct (Z.ltb_spec (2 ^ (e - 1)) 0); [lia|].
    destruct (Z.eqb_spec 0 (2 ^ (e - 1))); [lia|]. reflexivity.
Qed.

Lemma round53_idem (z : Z) : round53 (round53 z) = round53 z.
Proof.
  destruct (Z_lt_le_dec (Z.abs z) (2 ^ 53)) as [Hs | Hb].
  { now rewrite (round53_small z Hs), (round53_small z Hs). }
  assert (G : forall a, 2 ^ 53 <= a -> round53 (round53 a) = round53 a).
  { intros a Ha.
    assert (L : 53 <= Z.log2 a) by (apply Z.log2_le_pow2; lia).
    set (e := Z.log2 a - 52).
    cut (exists q, 2 ^ 52 <= q <= 2 ^ 53 /\ round53 a = q * 2 ^ e).
    { intros (q & Hq & ->). apply round53_scaled; lia. }
    unfold round53. rewrite Z.abs_eq by lia.
    destruct (Z.ltb_spec a (2 ^ 53)); [lia|].
    rewrite (Z.sgn_pos a), Z.mul_1_l by lia. fold e.
    assert (Hl : 2 ^ Z.log2 a <= a < 2 ^ Z.succ (Z.log2 a))
      by (apply Z.log2_spec; lia).
    assert (P : 0 < 2 ^ e) by (apply Z.pow_pos_nonneg; lia).
    assert (X1 : 2 ^ Z.log2 a = 2 ^ 52 * 2 ^ e).
    { rewrite <- Z.pow_add_r by lia. f_equal; lia. }
    assert (X2 : 2 ^ Z.succ (Z.log2 a) = 2 ^ 53 * 2 ^ e).
    { rewrite <- Z.pow_add_r by lia. f_equal; lia. }
    assert (Hq : 2 ^ 52 <= a / 2 ^ e < 2 ^ 53).
    { split; [apply Z.div_le_lower_bound | apply Z.div_lt_upper_bound];
        lia. }
    eexists. split; [|reflexivity].
    destruct (_ || _); lia. }
  destruct (Z_lt_le_dec z 0) as [Hn | Hp].
  - assert (Ez : z = - (- z)) by lia. rewrite Ez.
    rewrite (round53_opp (- z)), (round53_opp (round53 (- z))).
    rewrite G; lia.
  - apply G. lia.
Qed.

Lemma of_Z_is_double (z r : Z) : of_Z z = Fin r -> is_double r.
Proof.
  unfold of_Z.
  destruct (Z.leb_spec (2 ^ 1024) (Z.abs (round53 z))); [discriminate|].
  intros [= <-]. split; [apply round53_idem | assumption].
Qed.

Lemma parseInt_is_double (v : JsValue) (r : Z) :
  parseInt v = Fin r -> is_double r.
Proof.
  unfold parseInt, parseInt_string.
  destruct (match drop_while is_white_space (ToString v) with
            | [] => _
            | c :: rest => _
            end) as [sign S1].
  destruct (match S1 with
            | [] => _
            | c :: l => _
            end) as [R S2].
  destruct (take_while (is_radix_digit R) S2); [discriminate|].
  apply of_Z_is_double.
Qed.

(** X16: normalising the limit a second time changes nothing, and
    normalising a whole normalised pair changes nothing as long as its page
    is a finite number below [10 ^ 21]. *)
Theorem validatePagination_idempotent (pv lv : JsValue) :
  let r := validatePagination pv lv in
  (forall x, limit (validatePagination x (VNum (limit r))) = limit r)
  /\ (forall p,
        page r = Fin p -> p < 10 ^ 21 ->
        validatePagination (VNum (page r)) (VNum (limit r)) = r).
Proof.
  intros r.
  destruct (validatePagination_limit_range pv lv) as (l & El & Hl).
  fold r in El.
  assert (Pl : parseInt (VNum (Fin l)) = Fin l)
    by (apply parseInt_integer; [apply is_double_small|]; lia).
  split.
  - intros x. rewrite El. unfold validatePagination, limit. rewrite Pl.
    unfold or_default, ToBoolean. destruct (Z.eqb_spec l 0); [lia|].
    simpl. f_equal; lia.
  - intros p Ep Hp.
    assert (Hd : is_double p /\ 1 <= p).
    { unfold r, validatePagination, page in Ep.
      destruct (parseInt pv) as [| [|] | z] eqn:E; simpl in Ep;
        try discriminate.
      - injection Ep as <-. split; [apply is_double_small|]; lia.
      - injection Ep as <-. split; [apply is_double_small|]; lia.
      - unfold or_default, ToBoolean in Ep.
        destruct (Z.eqb_spec z 0); simpl in Ep; injection Ep as <-.
        + split; [apply is_double_small|]; lia.
        + split; [|lia]. apply parseInt_is_double in E.
          destruct (Z.max_spec 1 z) as [[_ ->] | [_ ->]];
            [exact E | apply is_double_small; lia]. }
    destruct Hd as [Hdb Hp1].
    rewrite Ep, El.
    rewrite (validatePagination_parsed (VNum (Fin p)) (VNum (Fin l)) p l);
      try lia; auto.
    + destruct r as [rp rl]. simpl in Ep, El. now subst.
    + apply parseInt_integer; [exact Hdb | lia].
Qed.

Lemma validatePagination_idempotent_witness :
  validatePagination (VNum (Fin 7)) (VNum (Fin 100)) =
    validatePagination (VStr (lit "7")) (VNum (Fin 250)).
Proof.
  refine (proj2 (validatePagination_idempotent (VStr (lit "7"))
                   (VNum (Fin 250))) 7 _ _).
  - reflexivity.
  - vm_compute; reflexivity.
Defined.

(** ** Search terms that need no cleaning *)

Lemma drop_while_head {A} (p : A -> bool) (s : list A) :
  match s with
  | [] => True
  | c :: _ => p c = false
  end ->
  drop_while p s = s.
Proof.
  destruct s as [| c s]; simpl; [reflexivity|]. now intros ->.
Qed.

(** X17: a string of at most 100 code units, without white space at either
    end and without angle brackets, is returned by [sanitizeSearchTerm] as
    it is. *)
Theorem sanitizeSearchTerm_identity (s : jsstring) :
  trimmed s -> (length s <= 100)%nat ->
  (forall c, In c s -> c <> 60 /\ c <> 62) ->
  sanitizeSearchTerm (VStr s) = s.
Proof.
  intros [Hh Ht] Hl Hc. rewrite sanitizeSearchTerm_unfold.
  assert (T : trim s = s).
  { unfold trim. rewrite (drop_while_head _ s Hh).
    rewrite (drop_while_head _ (rev s) Ht). apply rev_involutive. }
  rewrite T.
  assert (F : remove_angle_brackets s = s).
  { unfold remove_angle_brackets, jsstring. clear - Hc.
    induction s as [| c s IH]; [reflexivity|].
    rewrite filter_cons_True.
    - f_equal. apply IH. intros x Hx. apply Hc. now right.
    - destruct (Hc c) as [N1 N2]; [now left|].
      apply negb_true_iff, orb_false_iff. now rewrite !Z.eqb_neq. }
  rewrite F. apply take_ge. lia.
Qed.

Lemma sanitizeSearchTerm_identity_witness :
  sanitizeSearchTerm (VStr (lit "War Greymon")) = lit "War Greymon".
Proof.
  apply sanitizeSearchTerm_identity.
  - split; reflexivity.
  - simpl. lia.
  - intros c H. simpl in H.
    repeat (destruct H as [<- | H]; [split; discriminate|]). destruct H.
Defined.

(** ** What a route can throw, and the list route *)

Lemma getStats_result (b : Backend) :
  result b getStats =
  match error (b _ CountDigimons), error (b _ CountByStage) with
  | None, None =>
      Returned {| total_digimons := count (b _ CountDigimons);
                  count_by_stage := data (b _ CountByStage) |}
  | _, _ => Thrown (Error Msg.getStats)
  end.
Proof.
  unfold getStats. rewrite !result_bind.
  change (result b (await CountDigimons)) with (Returned (b _ CountDigimons)).
  cbv iota beta. rewrite result_bind.
  change (result b (await CountByStage)) with (Returned (b _ CountByStage)).
  cbv iota beta.
  destruct (error (b _ CountDigimons)), (error (b _ CountByStage));
    reflexivity.
Qed.

Lemma getAllDigimons_run (b : Backend) (page limit : option JsNumber)
    (stage : JsValue) :
  exists q : Query (list Row),
    issued b (getAllDigimons page limit stage) = [any q]
    /\ result b (getAllDigimons page limit stage) =
       match error (b _ q), data (b _ q) with
       | Some _, _ => Thrown (Error Msg.getAllDigimons)
       | None, None => Thrown TypeError
       | None, Some rows =>
           Returned
             {| dp_data := map (fun d => formatDigimon (Some d)) rows;
                pagination :=
                  {| pg_page := default (Fin 1) page;
                     pg_limit := default (Fin 50) limit;
                     total := count (b _ q);
                     totalPages :=
                       Math_ceil_div (number_or_null (count (b _ q)))
                         (default (Fin 50) limit) |} |}
       end.
Proof.
  unfold getAllDigimons. cbv zeta. set (q := ListDigimons _ _ _).
  exists q. rewrite issued_bind, result_bind.
  change (result b (await q)) with (Returned (b _ q)).
  change (issued b (await q)) with [any q]. cbv iota beta.
  destruct (error (b _ q)); [split; reflexivity|].
  rewrite issued_bind, result_bind.
  destruct (data (b _ q)); split; reflexivity.
Qed.

Ltac thrown_case :=
  intros [= <-]; split;
  [ auto | first [ solve [auto] | intros [| [|]]; discriminate ] ].

(** X18: a route fails only with the fixed message of the operation it
    runs (for the evolutions, of the lookup or of the evolution queries), or
    with a TypeError when a response has neither an error nor data; nothing
    of the backend's error is in what is thrown.  The lookups by id and by
    name and the statistics never raise a TypeError. *)
Theorem route_errors {Body : Type}
    (sR : Payload -> jsstring -> Body)
    (pR : list (option Digimon) -> Pagination -> Body)
    (eR : jsstring -> option Z -> Body)
    (b : Backend) (r : Route) (request : Request) (e : JsError) :
  result b (digimonRoutes sR pR eR r request) = Thrown e ->
  (e = TypeError \/ route_error r e)
  /\ (r = GetById \/ r = GetByName \/ r = GetStats -> route_error r e).
Proof.
  destruct r; unfold digimonRoutes, route_error.
  - unfold list_handler. rewrite result_bind.
    destruct (getAllDigimons_run b
                (Some (page (validatePagination
                               (field (query request) "page")
                               (field (query request) "limit"))))
                (Some (limit (validatePagination
                                (field (query request) "page")
                                (field (query request) "limit"))))
                (field (query request) "stage")) as (q & _ & ->).
    destruct (error (b _ q)); [|destruct (data (b _ q))]; simpl;
      try discriminate; thrown_case.
  - unfold search_handler. destruct (negb _); [discriminate|].
    rewrite result_bind.
    rewrite (proj2 (searchDigimons_run b _ _)).
    destruct (error _); [|destruct (data _)]; simpl;
      try discriminate; thrown_case.
  - unfold stats_handler. rewrite result_bind, getStats_result.
    destruct (error (b _ CountDigimons)), (error (b _ CountByStage)); simpl;
      try discriminate; thrown_case.
  - unfold id_handler. rewrite result_bind, getDigimonById_result.
    cbv zeta. destruct (is_failure _); simpl; [thrown_case|].
    destruct (formatDigimon _); discriminate.
  - unfold evolutions_handler. rewrite result_bind.
    rewrite (proj1 (getEvolutionData_run b _)), getDigimonById_result.
    cbv zeta. destruct (is_failure _); [thrown_case|].
    destruct (formatDigimon _); [|discriminate].
    set (id := field (params request) "id").
    destruct (error (b _ (EvolutionsFrom id))),
      (error (b _ (EvolutionsTo id))), (error (b _ (Requirements id)));
      try thrown_case.
    destruct (data (b _ (EvolutionsFrom id))),
      (data (b _ (EvolutionsTo id)));
      try discriminate; thrown_case.
  - unfold name_handler. rewrite result_bind, getDigimonByName_result.
    cbv zeta. destruct (is_failure _); simpl; [thrown_case|].
    destruct (formatDigimon _); discriminate.
Qed.

Lemma route_errors_witness :
  Error Msg.getStats = TypeError \/ route_error GetStats (Error Msg.getStats).
Proof.
  refine (proj1 (route_errors successResponse paginatedResponse errorResponse
                   failing_backend GetStats (request_id 1) _ _)).
  reflexivity.
Defined.

(** X19: GET / sends one query.  An error makes it throw; otherwise it
    replies 200 with one creature per row, in the order of the rows, and a
    pagination that carries the normalised page and limit and the count of
    the backend.  When the backend gives no count, [total] is null and
    [totalPages] is 0. *)
Theorem list_route_cases {Body : Type}
    (sR : Payload -> jsstring -> Body)
    (pR : list (option Digimon) -> Pagination -> Body)
    (eR : jsstring -> option Z -> Body)
    (b : Backend) (request : Request) :
  let pl :=
    validatePagination (field (query request) "page")
      (field (query request) "limit") in
  let route := digimonRoutes sR pR eR GetList request in
  exists q : Query (list Row),
    issued b route = [any q]
    /\ (error (b _ q) <> None ->
        result b route = Thrown (Error Msg.getAllDigimons))
    /\ (forall rows,
          error (b _ q) = None -> data (b _ q) = Some rows ->
          exists tp,
            result b route =
              Returned
                {| status := 200;
                   body :=
                     pR (map (fun d => formatDigimon (Some d)) rows)
                       {| pg_page := page pl;
                          pg_limit := limit pl;
                          total := count (b _ q);
                          totalPages := tp |} |}
            /\ (count (b _ q) = None -> tp = Fin 0)).
Proof.
  intros pl route. subst route. unfold digimonRoutes, list_handler. fold pl.
  destruct (getAllDigimons_run b (Some (page pl)) (Some (limit pl))
              (field (query request) "stage")) as (q & Hi & Hr).
  exists q. rewrite issued_bind, result_bind, Hi, Hr.
  split; [|split].
  - destruct (error (b _ q)); [reflexivity|].
    destruct (data (b _ q)); reflexivity.
  - intros He. destruct (error (b _ q)); [reflexivity | now elim He].
  - intros rows -> ->. eexists. split; [reflexivity|].
    intros ->.
    destruct (validatePagination_limit_range
                (field (query request) "page")
                (field (query request) "limit")) as (l & El & Hl).
    fold pl in El. rewrite El. simpl. unfold Math_ceil_div.
    destruct (Z.eqb_spec l 0); [lia | reflexivity].
Qed.

Lemma list_route_cases_witness :
  result failing_backend (api GetList (request_query ∅)) =
    Thrown (Error Msg.getAllDigimons).
Proof.
  destruct (list_route_cases successResponse paginatedResponse errorResponse
              failing_backend (request_query ∅)) as (q & _ & H & _).
  apply H. discriminate.
Defined.
